(** * RSI / NATR market-making scripts: a shallow embedding

    Two hummingbot scripts are embedded here:
    - [RSIAMM]   is the class of [rsi-amm-joi.py]    (the first variant),
    - [RsiAmmV2] is the class of [rsi-amm-joi-v2.py] (the second variant).

    Numbers.  Python [int] is [Z].  A Python [float] that enters a price is a
    binary64 number ([F64.t], the [spec_float] of the standard library, with
    NaN and the infinities), and its arithmetic rounds as IEEE 754 does.  A
    [Decimal] is a rational, NaN or an infinity ([Dec.t]): [Decimal(x)] of a
    float is exact, and a product of two decimals is rounded to the 28
    significant digits of the default context, ties to even; the exponent
    limits of that context are not represented.  The parameters of a strategy
    are rationals ([Q]): the exact values of the ints and floats the object
    holds, from which [F64.of_Q] gives the float back.  The clock and the mid
    price the framework reports are rationals too, and the arithmetic on
    timestamps and on the remembered mid price is exact.

    Effects.  A method body runs in a small state-and-exception monad: the
    state is the strategy object together with the calls it made to the host
    framework, and it survives a raised exception, as a Python object does.

    The host framework (candle feeds, the indicator library, the budget
    checker, the price lookup) is not part of the scripts; it is a record
    [Host.t] of readings and functions that every method takes as argument. *)

From Stdlib Require Import ZArith QArith Qabs Qround Qpower Lqa Lia List String.
From Stdlib Require Import SpecFloat.
From stdpp Require Import base option list gmap strings pretty.
Import ListNotations.

Local Open Scope string_scope.
Local Open Scope Z_scope.
Local Open Scope Q_scope.

(** ** Python: comparisons, exceptions, the method monad *)

Module Py.

(** [x < y] on numbers. *)
Definition lt (x y : Q) : bool :=
  match x ?= y with Lt => true | _ => false end.

(** [x > y] on numbers. *)
Definition gt (x y : Q) : bool := lt y x.

(** [x <= y] on numbers. *)
Definition le (x y : Q) : bool := Qle_bool x y.

Inductive exn : Type :=
| AttributeError (attr : string)
| TypeError (what : string)
| IndexError (what : string)
| KeyError (key : string)
| InvalidOperation (what : string).

Inductive outcome (A : Type) : Type :=
| Return (a : A)
| Raise (e : exn).
Arguments Return {A} a.
Arguments Raise {A} e.

(** A method body over an object of type [S]. *)
Definition M (S A : Type) : Type := S -> outcome A * S.

Definition ret {S A} (a : A) : M S A := fun s => (Return a, s).
Definition raise {S A} (e : exn) : M S A := fun s => (Raise e, s).
Definition bind {S A B} (m : M S A) (k : A -> M S B) : M S B :=
  fun s => match m s with
           | (Return a, s') => k a s'
           | (Raise e, s') => (Raise e, s')
           end.
Definition modify {S} (f : S -> S) : M S unit := fun s => (Return tt, f s).
Definition lift {S A} (o : outcome A) : M S A := fun s => (o, s).

(** A Python value, as far as attribute tables need one. *)
Inductive value : Type :=
| None_
| Int (z : Z)
| Num (q : Q)
| Str (s : string)
| Bool (b : bool)
| Obj (what : string).

(** [getattr(obj, name)] on the attribute table of an object. *)
Definition getattr (attrs : gmap string value) (name : string) : outcome value :=
  match attrs !! name with
  | Some v => Return v
  | None => Raise (AttributeError name)
  end.

(** A value used as a number. *)
Definition as_num (v : value) : outcome Q :=
  match v with
  | Int z => Return (inject_Z z)
  | Num q => Return q
  | _ => Raise (TypeError "a number is required")
  end.

(** A value used as a window length. *)
Definition as_int (v : value) : outcome Z :=
  match v with
  | Int z => Return z
  | _ => Raise (TypeError "an integer is required")
  end.

(** Binding the call arguments of a method [def f(self, a, b)]. *)
Definition bind_args2 {A} (fname : string) (args : list A) : outcome (A * A) :=
  match args with
  | [a; b] => Return (a, b)
  | _ => Raise (TypeError (fname +:+ "(): wrong number of positional arguments"))
  end.

End Py.

Notation "'let*' x ':=' m 'in' k" := (Py.bind m (fun x => k))
  (at level 10, x pattern, m at level 100, k at level 200).
Notation "m ';;' k" := (Py.bind m (fun _ => k))
  (at level 100, k at level 200, right associativity).

(** ** Python [float]: binary64 *)

Module F64.

Definition t : Type := spec_float.

Definition prec : Z := 53.
Definition emax : Z := 1024.

Definition add : t -> t -> t := SFadd prec emax.
Definition sub : t -> t -> t := SFsub prec emax.
Definition mul : t -> t -> t := SFmul prec emax.
Definition div : t -> t -> t := SFdiv prec emax.

(** [float(z)]. *)
Definition of_Z (z : Z) : t := binary_normalize prec emax z 0 false.

(** The float of a parameter: the quotient of numerator and denominator.
    It is the parameter itself when that is the value of a float, and the
    float nearest to it when both integers are below [2^53]. *)
Definition of_Q (q : Q) : t := div (of_Z (Qnum q)) (of_Z (Zpos (Qden q))).

(** Neither NaN nor an infinity. *)
Definition finite (x : t) : bool :=
  match x with
  | S754_zero _ | S754_finite _ _ _ => true
  | _ => false
  end.



(** The rational a finite float is; 0 for the others. *)
Definition value (x : t) : Q :=
  match x with
  | S754_finite s m e => Qred (inject_Z (if s then Z.neg m else Z.pos m) * Qpower 2 e)
  | _ => 0
  end.

(** [x < y] and [x > y] for a float [x] and the number [y] the other
    operand is: a comparison with NaN is false. *)
Definition lt (x : t) (y : Q) : bool :=
  match x with
  | S754_nan => false
  | S754_infinity negative => negative
  | _ => Py.lt (value x) y
  end.

Definition gt (x : t) (y : Q) : bool :=
  match x with
  | S754_nan => false
  | S754_infinity negative => negb negative
  | _ => Py.gt (value x) y
  end.

End F64.

(** ** Python [Decimal], default context *)

Module Dec.

Inductive t : Type :=
| NaN
| Infinity (negative : bool)
| Fin (q : Q).

(** [Decimal(x)] of a float: exact. *)
Definition of_float (x : F64.t) : t :=
  match x with
  | S754_nan => NaN
  | S754_infinity negative => Infinity negative
  | _ => Fin (F64.value x)
  end.

(** The nearest integer, ties to even ([ROUND_HALF_EVEN]). *)
Definition rne (q : Q) : Z :=
  let f := Qfloor q in
  match Qcompare (q - inject_Z f) (1 # 2) with
  | Lt => f
  | Gt => (f + 1)%Z
  | Eq => if Z.even f then f else (f + 1)%Z
  end.

(** The number of decimal digits of a positive integer [n < 10 ^ fuel]. *)
Fixpoint digits (fuel : nat) (n : Z) : Z :=
  match fuel with
  | O => 0%Z
  | S fuel => if (n <? 10)%Z then 1%Z else (1 + digits fuel (n / 10))%Z
  end.

Definition ndigits (n : Z) : Z := digits (S (Z.to_nat (Z.log2 n))) n.

(** The exponent of the leading digit of [q <> 0]: the [k] with
    [10^k <= |q| < 10^(k+1)]. *)
Definition adjusted (q : Q) : Z :=
  let c := (ndigits (Z.abs (Qnum q)) - ndigits (Zpos (Qden q)) - 1)%Z in
  if Qle_bool (Qpower 10 (c + 1)) (Qabs q) then (c + 1)%Z else c.

(** Rounding to the 28 significant digits of the context. *)
Definition round (q : Q) : Q :=
  if Qeq_bool q 0 then 0
  else
    let k := (adjusted q - 27)%Z in
    inject_Z (rne (q / Qpower 10 k)) * Qpower 10 k.


(** [x * y].  Zero times an infinity is an invalid operation, which the
    default context traps. *)
Definition mul (x y : t) : Py.outcome t :=
  match x, y with
  | NaN, _ | _, NaN => Py.Return NaN
  | Infinity s, Infinity s' => Py.Return (Infinity (xorb s s'))
  | Infinity s, Fin q | Fin q, Infinity s =>
      if Qeq_bool q 0 then Py.Raise (Py.InvalidOperation "0 * Infinity")
      else Py.Return (Infinity (xorb s (Py.lt q 0)))
  | Fin a, Fin b => Py.Return (Fin (round (a * b)))
  end.

End Dec.

(** ** The host framework, as the scripts use it *)

Module Host.

Inductive TradeType : Type := BUY | SELL | RANGE.
Inductive OrderType : Type := MARKET | LIMIT | LIMIT_MAKER.
Inductive PriceType : Type := MidPrice | BestBid | BestAsk | LastTrade.

Record OrderCandidate : Type := mkOrderCandidate {
  trading_pair : string;
  is_maker : bool;
  order_type : OrderType;
  order_side : TradeType;
  amount : Q;
  price : Dec.t
}.

(** A row of a candle table; [taker_buy_quote_volume] is its last column. *)
Record Candle : Type := mkCandle {
  open : Q; high : Q; low : Q; close : Q; volume : Q;
  taker_buy_quote_volume : F64.t
}.

Record ActiveOrder : Type := mkActiveOrder {
  active_trading_pair : string;
  client_order_id : string
}.

Record PositionExecutorConfig : Type := mkPositionExecutorConfig {
  timestamp : Q;
  executor_trading_pair : string;
  connector_name : string;
  side : TradeType;
  executor_amount : Q
}.

Inductive CreateExecutorAction : Type :=
| mkCreateExecutorAction (executor_config : PositionExecutorConfig).

(** What a script asks the framework to do. *)
Inductive call : Type :=
| log (msg : string) (arg : option Q)
| cancel (connector pair id : string)
| buy (connector pair : string) (amount : Q) (ot : OrderType) (price : Dec.t)
| sell (connector pair : string) (amount : Q) (ot : OrderType) (price : Dec.t).

(** A log line that formats a float. *)
Definition log_float (msg : string) (x : F64.t) : call :=
  match x with
  | S754_nan => log (msg +:+ " nan") None
  | S754_infinity false => log (msg +:+ " inf") None
  | S754_infinity true => log (msg +:+ " -inf") None
  | _ => log msg (Some (F64.value x))
  end.

(** The framework during one tick.  [ta_rsi length df i] and
    [ta_natr length df i] are the values the indicator library computes at
    row [i] of the candle table [df], where it computes any. *)
Record t : Type := mk {
  ready : bool;
  current_timestamp : Q;
  get_price_by_type : string -> string -> PriceType -> Q;
  feed_candles_df : list Candle;
  get_candles_df : string -> string -> string -> Z -> list Candle;
  ta_rsi : Z -> list Candle -> nat -> F64.t;
  ta_natr : Z -> list Candle -> nat -> F64.t;
  adjust_candidates : list OrderCandidate -> bool -> list OrderCandidate;
  get_active_orders : string -> list ActiveOrder
}.

(** The window the indicator library uses when it is called with [length]:
    its own default when [length] is not positive. *)
Definition ta_length (length default : Z) : Z :=
  if (0 <? length)%Z then length else default.

(** Whether the indicator library computes anything over a table: it does
    not when the table has at most [length] rows.  Then
    [df.ta.rsi(length=..., append=True)] appends no column, and
    [ta.natr(...)] returns [None]. *)
Definition ta_computes {A} (length : Z) (df : list A) : bool :=
  (length <? Z.of_nat (List.length df))%Z.

(** A computed column: one value per row. *)
Definition ta_column (values : list Candle -> nat -> F64.t) (df : list Candle)
  : list F64.t :=
  imap (fun i _ => values df i) df.

(** [df.empty] *)
Definition empty {A} (df : list A) : bool :=
  match df with [] => true | _ :: _ => false end.

(** [xs.pop(0)], with the list that is left. *)
Definition pop0 {A} (xs : list A) : Py.outcome (A * list A) :=
  match xs with
  | x :: rest => Py.Return (x, rest)
  | [] => Py.Raise (Py.IndexError "pop from empty list")
  end.

(** [df.iloc[-1]] / [series.iloc[-1]]. *)
Definition iloc_last {A} (rows : list A) : Py.outcome A :=
  match last rows with
  | Some r => Py.Return r
  | None => Py.Raise (Py.IndexError "single positional indexer is out-of-bounds")
  end.

End Host.

(** The state a method runs on: the strategy object and the calls made to
    the framework so far (oldest first). *)
Record run (S : Type) : Type := mkRun { self : S; calls : list Host.call }.
Arguments mkRun {S} self calls.
Arguments self {S} r.
Arguments calls {S} r.

Definition emit {S} (c : Host.call) : Py.M (run S) unit :=
  Py.modify (fun r => mkRun (self r) (calls r ++ [c])).

Definition update {S} (f : S -> S) : Py.M (run S) unit :=
  Py.modify (fun r => mkRun (f (self r)) (calls r)).

Definition this {S} : Py.M (run S) S :=
  fun r => (Py.Return (self r), r).

(** [for x in xs: body(x)] *)
Fixpoint for_each {S A} (xs : list A) (body : A -> Py.M (run S) unit)
  : Py.M (run S) unit :=
  match xs with
  | [] => Py.ret tt
  | x :: rest => body x ;; for_each rest body
  end.

(** A method body [m] leaves the part [proj] of the strategy object as it
    found it, whether it returns or raises. *)
Definition preserves {S A T} (proj : S -> T) (m : Py.M (run S) A) : Prop :=
  forall r, proj (self (snd (m r))) = proj (self r).

(** ** First variant: class [RSIAMM] of [rsi-amm-joi.py] *)

Module RSIAMM.
Import Host.

(** The attributes of a strategy object.  All but [max_records] are class
    attributes, read through [self]; [rsi_signal], [create_timestamp] and
    [last_mid_price] are rebound on the object by [on_tick].  [inherited]
    holds what the framework's base class defines. *)
Record t : Type := mk {
  bid_spread : Q;
  ask_spread : Q;
  rsi_refresh_time : Q;
  order_amount : Q;
  create_timestamp : Q;
  trading_pair : string;
  exchange : string;
  interval : string;
  natr_period : Z;
  TICK : Z;
  rsi_signal : Z;
  buffer_size : Q;
  rsi_spread_change_percentage : Q;
  price_source : PriceType;
  last_mid_price : option Q;
  max_records : Z;
  inherited : gmap string Py.value
}.

(** The class body (lines 26-48) followed by [__init__].  [order_amount] is
    the float written [0.0005]. *)
Definition new (base : gmap string Py.value) : t :=
  let natr_period := 100%Z in
  {| bid_spread := 1;
     ask_spread := 1;
     rsi_refresh_time := 15;
     order_amount := F64.value (F64.of_Q (5 # 10000));
     create_timestamp := 0;
     trading_pair := "BTC-USDT";
     exchange := "binance";
     interval := "3m";
     natr_period := natr_period;
     TICK := 1;
     rsi_signal := 0;
     buffer_size := 100;
     rsi_spread_change_percentage := 1 # 2;
     price_source := MidPrice;
     last_mid_price := None;
     max_records := natr_period + 10;
     inherited := base |}.

Definition opt_num (o : option Q) : Py.value :=
  match o with Some q => Py.Num q | None => Py.None_ end.

(** The attribute table of an object: its own attributes shadow the
    inherited ones. *)
Definition attrs (s : t) : gmap string Py.value :=
  list_to_map
    [ ("bid_spread", Py.Num (bid_spread s));
      ("ask_spread", Py.Num (ask_spread s));
      ("rsi_refresh_time", Py.Num (rsi_refresh_time s));
      ("order_amount", Py.Num (order_amount s));
      ("create_timestamp", Py.Num (create_timestamp s));
      ("trading_pair", Py.Str (trading_pair s));
      ("exchange", Py.Str (exchange s));
      ("interval", Py.Str (interval s));
      ("natr_period", Py.Int (natr_period s));
      ("TICK", Py.Int (TICK s));
      ("rsi_signal", Py.Int (rsi_signal s));
      ("buffer_size", Py.Num (buffer_size s));
      ("rsi_spread_change_percentage", Py.Num (rsi_spread_change_percentage s));
      ("price_source", Py.Obj "PriceType");
      ("candles", Py.Obj "list");
      ("markets", Py.Obj "dict");
      ("last_mid_price", opt_num (last_mid_price s));
      ("market_data_provider", Py.Obj "MarketDataProvider");
      ("max_records", Py.Int (max_records s)) ]
  ∪ inherited s.

Definition set_rsi_signal (v : Z) (s : t) : t :=
  mk (bid_spread s) (ask_spread s) (rsi_refresh_time s) (order_amount s)
     (create_timestamp s) (trading_pair s) (exchange s) (interval s)
     (natr_period s) (TICK s) v (buffer_size s)
     (rsi_spread_change_percentage s) (price_source s) (last_mid_price s)
     (max_records s) (inherited s).

Definition set_create_timestamp (v : Q) (s : t) : t :=
  mk (bid_spread s) (ask_spread s) (rsi_refresh_time s) (order_amount s)
     v (trading_pair s) (exchange s) (interval s)
     (natr_period s) (TICK s) (rsi_signal s) (buffer_size s)
     (rsi_spread_change_percentage s) (price_source s) (last_mid_price s)
     (max_records s) (inherited s).

Definition set_last_mid_price (v : option Q) (s : t) : t :=
  mk (bid_spread s) (ask_spread s) (rsi_refresh_time s) (order_amount s)
     (create_timestamp s) (trading_pair s) (exchange s) (interval s)
     (natr_period s) (TICK s) (rsi_signal s) (buffer_size s)
     (rsi_spread_change_percentage s) (price_source s) v
     (max_records s) (inherited s).

(** The refresh timer: the cached signal and the refresh deadline. *)
Definition timer (s : t) : Z * Q := (rsi_signal s, create_timestamp s).

(** [get_processed_df] (lines 101-109): the candle feed's table, with the
    column [RSI_7] appended as its last column when the indicator library
    computes one, that is on more than 7 rows. *)
Definition get_processed_df (h : Host.t) : list (Candle * option F64.t) :=
  let candles_df := feed_candles_df h in
  if ta_computes 7 candles_df then
    imap (fun i k => (k, Some (ta_rsi h 7 candles_df i))) candles_df
  else
    (fun k => (k, None)) <$> candles_df.

(** [df.iat[-1, -1]]: last row, last column, whichever column that is. *)
Definition iat_last_last (df : list (Candle * option F64.t)) : Py.outcome F64.t :=
  match last df with
  | Some (_, Some v) => Py.Return v
  | Some (k, None) => Py.Return (taker_buy_quote_volume k)
  | None => Py.Raise (Py.IndexError "index -1 is out of bounds for axis 0 with size 0")
  end.

(** [get_rsi_signal] (lines 82-99). *)
Definition get_rsi_signal (h : Host.t) : Py.M (run t) Z :=
  let candles_df := get_processed_df h in
  let* rsi_value := Py.lift (iat_last_last candles_df) in
  emit (log_float "RSI signal is" rsi_value) ;;
  if F64.gt rsi_value 70 then
    emit (log "RSI signal is over 70 - adjusting mid price" None) ;;
    Py.ret (-1)%Z
  else if F64.lt rsi_value 30 then
    emit (log "RSI signal is under 30 - adjusting mid price" None) ;;
    Py.ret 1%Z
  else
    Py.ret 0%Z.

(** [get_natr] (lines 131-136).  On a table with at most [natr_period] rows
    [ta.natr] returns [None], and [natr.iloc] raises. *)
Definition get_natr (h : Host.t) : Py.M (run t) F64.t :=
  let* s := this in
  let candles_df :=
    get_candles_df h (exchange s) (trading_pair s) (interval s) (max_records s) in
  let* v := Py.lift (Py.getattr (attrs s) "natr_period") in
  let* length := Py.lift (Py.as_int v) in
  let length := ta_length length 14 in
  if ta_computes length candles_df then
    let natr := ta_column (ta_natr h length) candles_df in
    let* x := Py.lift (iloc_last natr) in
    Py.ret (F64.div x (F64.of_Z 100))
  else
    Py.raise (Py.AttributeError "iloc").

(** The float [bid_spread * natr * rsi_spread_change_percentage] of lines
    114 and 116. *)
Definition shift (s : t) (natr : F64.t) : F64.t :=
  F64.mul (F64.mul (F64.of_Q (bid_spread s)) natr)
          (F64.of_Q (rsi_spread_change_percentage s)).

(** The floats [1 - bid_spread * natr] and [1 + ask_spread * natr] of lines
    120 and 121. *)
Definition bid_factor (s : t) (natr : F64.t) : F64.t :=
  F64.sub (F64.of_Z 1) (F64.mul (F64.of_Q (bid_spread s)) natr).

Definition ask_factor (s : t) (natr : F64.t) : F64.t :=
  F64.add (F64.of_Z 1) (F64.mul (F64.of_Q (ask_spread s)) natr).

(** [adjusted_mid_price], as lines 113-118 compute it. *)
Definition reference (s : t) (mid_price : Q) (natr : F64.t) : Py.outcome Dec.t :=
  if (rsi_signal s =? 1)%Z then
    Dec.mul (Dec.Fin mid_price) (Dec.of_float (F64.add (F64.of_Z 1) (shift s natr)))
  else if (rsi_signal s =? -1)%Z then
    Dec.mul (Dec.Fin mid_price) (Dec.of_float (F64.sub (F64.of_Z 1) (shift s natr)))
  else
    Py.Return (Dec.Fin mid_price).

(** [buy_price] and [sell_price], as lines 113-121 compute them. *)
Definition quotes (s : t) (mid_price : Q) (natr : F64.t) : Py.outcome (Dec.t * Dec.t) :=
  match reference s mid_price natr with
  | Py.Raise e => Py.Raise e
  | Py.Return adjusted_mid_price =>
      match Dec.mul adjusted_mid_price (Dec.of_float (bid_factor s natr)) with
      | Py.Raise e => Py.Raise e
      | Py.Return buy_price =>
          match Dec.mul adjusted_mid_price (Dec.of_float (ask_factor s natr)) with
          | Py.Raise e => Py.Raise e
          | Py.Return sell_price => Py.Return (buy_price, sell_price)
          end
      end
  end.

(** The three prices of lines 113-121 in exact arithmetic: what [reference]
    and [quotes] compute when no operation rounds. *)
Definition adjusted_mid_price (s : t) (mid_price natr : Q) : Q :=
  if (rsi_signal s =? 1)%Z then
    mid_price * (1 + (bid_spread s * natr * rsi_spread_change_percentage s))
  else if (rsi_signal s =? -1)%Z then
    mid_price * (1 - (bid_spread s * natr * rsi_spread_change_percentage s))
  else
    mid_price.

Definition buy_price (s : t) (mid_price natr : Q) : Q :=
  adjusted_mid_price s mid_price natr * (1 - bid_spread s * natr).

Definition sell_price (s : t) (mid_price natr : Q) : Q :=
  adjusted_mid_price s mid_price natr * (1 + ask_spread s * natr).

(** The two orders of [create_proposal] (lines 123-129);
    [Decimal(self.order_amount)] is exact. *)
Definition orders (s : t) (buy_price sell_price : Dec.t) : list OrderCandidate :=
  let buy_order :=
    mkOrderCandidate (trading_pair s) true LIMIT BUY (order_amount s) buy_price in
  let sell_order :=
    mkOrderCandidate (trading_pair s) true LIMIT SELL (order_amount s) sell_price in
  [buy_order; sell_order].

(** [create_proposal] (lines 111-129). *)
Definition create_proposal (h : Host.t) (mid_price : Q)
  : Py.M (run t) (list OrderCandidate) :=
  let* natr := get_natr h in
  let* s := this in
  let* prices := Py.lift (quotes s mid_price natr) in
  Py.ret (orders s (fst prices) (snd prices)).

(** [adjust_proposal_to_budget] (lines 138-140). *)
Definition adjust_proposal_to_budget (h : Host.t) (proposal : list OrderCandidate)
  : Py.M (run t) (list OrderCandidate) :=
  Py.ret (adjust_candidates h proposal true).

(** [place_order] (lines 146-152). *)
Definition place_order (connector_name : string) (order : OrderCandidate)
  : Py.M (run t) unit :=
  match order_side order with
  | SELL => emit (sell connector_name (Host.trading_pair order) (amount order)
                       (order_type order) (price order))
  | BUY => emit (buy connector_name (Host.trading_pair order) (amount order)
                     (order_type order) (price order))
  | _ => Py.ret tt
  end.

(** [place_orders] (lines 142-144). *)
Definition place_orders (proposal : list OrderCandidate) : Py.M (run t) unit :=
  let* s := this in
  for_each proposal (fun order => place_order (exchange s) order).

(** [cancel_all_orders] (lines 154-156). *)
Definition cancel_all_orders (h : Host.t) : Py.M (run t) unit :=
  let* s := this in
  for_each (get_active_orders h (exchange s))
           (fun order => emit (cancel (exchange s) (active_trading_pair order)
                                      (client_order_id order))).

(** The condition of line 72:
    [last_mid_price is None or abs(new_mid_price - last_mid_price) > buffer_size]. *)
Definition should_requote (last_mid_price : option Q) (new_mid_price buffer_size : Q)
  : bool :=
  match last_mid_price with
  | None => true
  | Some last => Py.gt (Qabs (new_mid_price - last)) buffer_size
  end.

(** [on_tick] (lines 61-80). *)
Definition on_tick (h : Host.t) : Py.M (run t) unit :=
  if negb (ready h) then Py.ret tt
  else
    let* s := this in
    let new_mid_price :=
      get_price_by_type h (exchange s) (trading_pair s) (price_source s) in
    (if Py.le (create_timestamp s) (current_timestamp h) then
       let* signal := get_rsi_signal h in
       update (set_rsi_signal signal) ;;
       let* s := this in
       update (set_create_timestamp (rsi_refresh_time s + current_timestamp h))
     else Py.ret tt) ;;
    let* s := this in
    if should_requote (last_mid_price s) new_mid_price (buffer_size s) then
      emit (log "Mid price is" (Some new_mid_price)) ;;
      cancel_all_orders h ;;
      let* proposal := create_proposal h new_mid_price in
      let* proposal_adjusted := adjust_proposal_to_budget h proposal in
      place_orders proposal_adjusted ;;
      update (set_last_mid_price (Some new_mid_price))
    else Py.ret tt.

End RSIAMM.

(** ** Second variant: classes [RsiAmmV2Config] and [RsiAmmV2] of
    [rsi-amm-joi-v2.py] *)

Module RsiAmmV2Config.

(** The fields of the class body (lines 22-72); [base_fields] holds those
    of the framework's configuration base class. *)
Record t : Type := mk {
  script_file_name : string;
  connector : string;
  trading_pair : string;
  rsi_period : Z;
  rsi_low : Q;
  rsi_high : Q;
  interval : string;
  order_amount_quote : Q;
  max_records : Z;
  bid_spread : Q;
  ask_spread : Q;
  rsi_refresh_time : Q;
  create_timestamp : Q;
  exchange : string;
  TICK : Z;
  buffer_size : Q;
  rsi_spread_change_percentage : Q;
  base_fields : gmap string Py.value
}.

(** A configuration: the prompted fields as given, the others at the
    values of the class body. *)
Definition new (connector trading_pair : string) (rsi_period : Z)
           (rsi_low rsi_high : Q) (interval : string) (order_amount_quote : Q)
           (base : gmap string Py.value) : t :=
  {| script_file_name := "rsi-amm-joi-v2.py";
     connector := connector;
     trading_pair := trading_pair;
     rsi_period := rsi_period;
     rsi_low := rsi_low;
     rsi_high := rsi_high;
     interval := interval;
     order_amount_quote := order_amount_quote;
     max_records := 1000;
     bid_spread := 1;
     ask_spread := 1;
     rsi_refresh_time := 15;
     create_timestamp := 0;
     exchange := "binance";
     TICK := 1;
     buffer_size := 100;
     rsi_spread_change_percentage := 1 # 2;
     base_fields := base |}.

(** The prompted fields at their defaults. *)
Definition default (base : gmap string Py.value) : t :=
  new "binance" "BTC-USDT" 14 30 70 "3m" 30 base.

(** The attribute table of a configuration object. *)
Definition attrs (c : t) : gmap string Py.value :=
  list_to_map
    [ ("script_file_name", Py.Str (script_file_name c));
      ("candles_config", Py.Obj "list");
      ("markets", Py.Obj "dict");
      ("connector", Py.Str (connector c));
      ("trading_pair", Py.Str (trading_pair c));
      ("rsi_period", Py.Int (rsi_period c));
      ("rsi_low", Py.Num (rsi_low c));
      ("rsi_high", Py.Num (rsi_high c));
      ("interval", Py.Str (interval c));
      ("order_amount_quote", Py.Num (order_amount_quote c));
      ("max_records", Py.Int (max_records c));
      ("bid_spread", Py.Num (bid_spread c));
      ("ask_spread", Py.Num (ask_spread c));
      ("rsi_refresh_time", Py.Num (rsi_refresh_time c));
      ("create_timestamp", Py.Num (create_timestamp c));
      ("exchange", Py.Str (exchange c));
      ("TICK", Py.Int (TICK c));
      ("buffer_size", Py.Num (buffer_size c));
      ("rsi_spread_change_percentage", Py.Num (rsi_spread_change_percentage c)) ]
  ∪ base_fields c.

End RsiAmmV2Config.
Module RsiAmmV2.
Import Host.
Module Config := RsiAmmV2Config.

(** A strategy object: the class attributes (lines 76-77) and what
    [__init__] binds (lines 89-93).  [others] holds every other attribute
    of the object: those of the framework's base class and those bound on
    the object later. *)
Record t : Type := mk {
  account_config_set : bool;
  rsi_signal : option Z;
  config : Config.t;
  max_records : Z;
  last_mid_price : option Q;
  others : gmap string Py.value
}.

(** [__init__] (lines 87-99). *)
Definition new (config : Config.t) (base : gmap string Py.value) : t :=
  {| account_config_set := false;
     rsi_signal := Some 0%Z;
     config := config;
     max_records := Config.rsi_period config + 10;
     last_mid_price := None;
     others := base |}.

Definition opt_int (o : option Z) : Py.value :=
  match o with Some z => Py.Int z | None => Py.None_ end.

(** The attribute table of a strategy object. *)
Definition attrs (s : t) : gmap string Py.value :=
  list_to_map
    [ ("account_config_set", Py.Bool (account_config_set s));
      ("rsi_signal", opt_int (rsi_signal s));
      ("markets", Py.Obj "dict");
      ("config", Py.Obj "RsiAmmV2Config");
      ("market_data_provider", Py.Obj "MarketDataProvider");
      ("max_records", Py.Int (max_records s));
      ("last_mid_price", RSIAMM.opt_num (last_mid_price s)) ]
  ∪ others s.

Definition set_rsi_signal (v : option Z) (s : t) : t :=
  mk (account_config_set s) v (config s) (max_records s) (last_mid_price s)
     (others s).

Definition set_last_mid_price (v : option Q) (s : t) : t :=
  mk (account_config_set s) (rsi_signal s) (config s) (max_records s) v
     (others s).

(** [self.name = v] for an attribute that is not a field of [t]. *)
Definition setattr (name : string) (v : Py.value) (s : t) : t :=
  mk (account_config_set s) (rsi_signal s) (config s) (max_records s)
     (last_mid_price s) (<[name := v]> (others s)).

(** The refresh timer: the cached signal and the refresh deadline, an
    attribute that [__init__] does not bind. *)
Definition timer (s : t) : option Z * option Py.value :=
  (rsi_signal s, attrs s !! "create_timestamp").

(** [self.name] read as a number, for an attribute that neither the class
    body nor [__init__] binds. *)
Definition getattr_num (name : string) : Py.M (run t) Q :=
  let* s := this in
  let* v := Py.lift (Py.getattr (attrs s) name) in
  Py.lift (Py.as_num v).

(** A row of the candle table of [get_signal], with its two added columns. *)
Record row : Type := mkRow { candle : Candle; RSI : F64.t; signal : Z }.

Definition set_signal (v : Z) (r : row) : row := mkRow (candle r) (RSI r) v.

(** The name of the column that line 159 reads. *)
Definition rsi_column (c : Config.t) : string :=
  "RSI_" +:+ pretty (Config.rsi_period c).

(** Whether the table has, after line 157, the column that line 159 names:
    the indicator library appends the column [RSI_<length>] for the window
    it uses, and only on a table with more rows than that. *)
Definition has_rsi_column (c : Config.t) (candles : list Candle) : bool :=
  let length := ta_length (Config.rsi_period c) 14 in
  ta_computes length candles && (length =? Config.rsi_period c)%Z.

(** [get_signal] (lines 155-161).  Line 159 raises [KeyError] when the
    column it names is not in the table. *)
Definition get_signal (h : Host.t) (connector_name trading_pair : string)
  : Py.M (run t) (option Z) :=
  let* s := this in
  let c := config s in
  let candles :=
    get_candles_df h connector_name trading_pair (Config.interval c) (max_records s) in
  if has_rsi_column c candles then
    let length := ta_length (Config.rsi_period c) 14 in
    let candles := imap (fun i k => mkRow k (ta_rsi h length candles i) 0%Z) candles in
    let candles := set_signal 0%Z <$> candles in
    let candles :=
      (fun r => if F64.lt (RSI r) (Config.rsi_low c) then set_signal 1%Z r else r)
        <$> candles in
    let candles :=
      (fun r => if F64.gt (RSI r) (Config.rsi_high c) then set_signal (-1)%Z r else r)
        <$> candles in
    if negb (empty candles) then
      let* r := Py.lift (iloc_last candles) in
      Py.ret (Some (signal r))
    else Py.ret None
  else
    Py.raise (Py.KeyError (rsi_column c)).

(** A call of [self.get_signal]: the arguments given are bound to the two
    parameters of the method before its body runs. *)
Definition call_get_signal (h : Host.t) (args : list string)
  : Py.M (run t) (option Z) :=
  Py.bind (Py.lift (Py.bind_args2 "get_signal" args))
          (fun '(connector_name, trading_pair) =>
             get_signal h connector_name trading_pair).

(** [get_natr] (lines 185-190). *)
Definition get_natr (h : Host.t) : Py.M (run t) F64.t :=
  let* s := this in
  let c := config s in
  let candles_df :=
    get_candles_df h (Config.exchange c) (Config.trading_pair c) (Config.interval c)
                   (max_records s) in
  let* v := Py.lift (Py.getattr (Config.attrs c) "natr_period") in
  let* length := Py.lift (Py.as_int v) in
  let length := ta_length length 14 in
  if ta_computes length candles_df then
    let natr := ta_column (ta_natr h length) candles_df in
    let* x := Py.lift (iloc_last natr) in
    Py.ret (F64.div x (F64.of_Z 100))
  else
    Py.raise (Py.AttributeError "iloc").

(** [self.rsi_signal == z]: [None] equals no integer. *)
Definition signal_is (s : t) (z : Z) : bool :=
  match rsi_signal s with
  | Some v => (v =? z)%Z
  | None => false
  end.

(** The floats of lines 165, 167, 171 and 172. *)
Definition shift (s : t) (natr : F64.t) : F64.t :=
  let c := config s in
  F64.mul (F64.mul (F64.of_Q (Config.bid_spread c)) natr)
          (F64.of_Q (Config.rsi_spread_change_percentage c)).

Definition bid_factor (s : t) (natr : F64.t) : F64.t :=
  F64.sub (F64.of_Z 1) (F64.mul (F64.of_Q (Config.bid_spread (config s))) natr).

Definition ask_factor (s : t) (natr : F64.t) : F64.t :=
  F64.add (F64.of_Z 1) (F64.mul (F64.of_Q (Config.ask_spread (config s))) natr).

(** [adjusted_mid_price], as lines 164-169 compute it. *)
Definition reference (s : t) (mid_price : Q) (natr : F64.t) : Py.outcome Dec.t :=
  if signal_is s 1 then
    Dec.mul (Dec.Fin mid_price) (Dec.of_float (F64.add (F64.of_Z 1) (shift s natr)))
  else if signal_is s (-1) then
    Dec.mul (Dec.Fin mid_price) (Dec.of_float (F64.sub (F64.of_Z 1) (shift s natr)))
  else
    Py.Return (Dec.Fin mid_price).

(** [buy_price] and [sell_price], as lines 164-172 compute them. *)
Definition quotes (s : t) (mid_price : Q) (natr : F64.t) : Py.outcome (Dec.t * Dec.t) :=
  match reference s mid_price natr with
  | Py.Raise e => Py.Raise e
  | Py.Return adjusted_mid_price =>
      match Dec.mul adjusted_mid_price (Dec.of_float (bid_factor s natr)) with
      | Py.Raise e => Py.Raise e
      | Py.Return buy_price =>
          match Dec.mul adjusted_mid_price (Dec.of_float (ask_factor s natr)) with
          | Py.Raise e => Py.Raise e
          | Py.Return sell_price => Py.Return (buy_price, sell_price)
          end
      end
  end.

(** The three prices of lines 164-172 in exact arithmetic. *)
Definition adjusted_mid_price (s : t) (mid_price natr : Q) : Q :=
  let c := config s in
  if signal_is s 1 then
    mid_price * (1 + (Config.bid_spread c * natr * Config.rsi_spread_change_percentage c))
  else if signal_is s (-1) then
    mid_price * (1 - (Config.bid_spread c * natr * Config.rsi_spread_change_percentage c))
  else
    mid_price.

Definition buy_price (s : t) (mid_price natr : Q) : Q :=
  adjusted_mid_price s mid_price natr * (1 - Config.bid_spread (config s) * natr).

Definition sell_price (s : t) (mid_price natr : Q) : Q :=
  adjusted_mid_price s mid_price natr * (1 + Config.ask_spread (config s) * natr).

(** The two orders of [create_proposal] (lines 174-180). *)
Definition orders (s : t) (buy_price sell_price : Dec.t) : list OrderCandidate :=
  let c := config s in
  let buy_order :=
    mkOrderCandidate (Config.trading_pair c) true LIMIT BUY
                     (Config.order_amount_quote c) buy_price in
  let sell_order :=
    mkOrderCandidate (Config.trading_pair c) true LIMIT SELL
                     (Config.order_amount_quote c) sell_price in
  [buy_order; sell_order].

(** [create_proposal] (lines 162-180). *)
Definition create_proposal (h : Host.t) (mid_price : Q)
  : Py.M (run t) (list OrderCandidate) :=
  let* natr := get_natr h in
  let* s := this in
  let* prices := Py.lift (quotes s mid_price natr) in
  Py.ret (orders s (fst prices) (snd prices)).

(** [adjust_proposal_to_budget] (lines 182-184). *)
Definition adjust_proposal_to_budget (h : Host.t) (proposal : list OrderCandidate)
  : Py.M (run t) (list OrderCandidate) :=
  Py.ret (adjust_candidates h proposal true).

(** The condition of line 123. *)
Definition should_requote (last_mid_price : option Q) (new_mid_price buffer_size : Q)
  : bool :=
  match last_mid_price with
  | None => true
  | Some last => Py.gt (Qabs (new_mid_price - last)) buffer_size
  end.

(** The executor actions of [create_actions_proposal] (lines 134-152),
    made from the budget-adjusted proposal. *)
Definition executor_actions (h : Host.t) (proposal_adjusted : list OrderCandidate)
  : Py.M (run t) (list CreateExecutorAction) :=
  let* s := this in
  let c := config s in
  let* p1 := Py.lift (pop0 proposal_adjusted) in
  let order1 := fst p1 in
  let* p2 := Py.lift (pop0 (snd p1)) in
  let order2 := fst p2 in
  let executor_config_buy :=
    mkPositionExecutorConfig (current_timestamp h) (Config.trading_pair c)
      (Config.connector c) (order_side order1) (amount order1) in
  let executor_config_sell :=
    mkPositionExecutorConfig (current_timestamp h) (Config.trading_pair c)
      (Config.connector c) (order_side order2) (amount order2) in
  Py.ret [ mkCreateExecutorAction executor_config_buy;
           mkCreateExecutorAction executor_config_sell ].

(** [create_actions_proposal] (lines 112-153).  [create_timestamp] and
    [rsi_refresh_time] are read on [self], where neither the class body nor
    [__init__] binds them. *)
Definition create_actions_proposal (h : Host.t)
  : Py.M (run t) (list CreateExecutorAction) :=
  if negb (ready h) then Py.ret []
  else
    let* s := this in
    let c := config s in
    let new_mid_price :=
      get_price_by_type h (Config.exchange c) (Config.exchange c) MidPrice in
    let* create_timestamp := getattr_num "create_timestamp" in
    (if Py.le create_timestamp (current_timestamp h) then
       let* signal := call_get_signal h [] in
       update (set_rsi_signal signal) ;;
       let* rsi_refresh_time := getattr_num "rsi_refresh_time" in
       update (setattr "create_timestamp"
                       (Py.Num (rsi_refresh_time + current_timestamp h)))
     else Py.ret tt) ;;
    let* s := this in
    if should_requote (last_mid_price s) new_mid_price (Config.buffer_size c) then
      emit (log "Mid price is" (Some new_mid_price)) ;;
      let* proposal := create_proposal h new_mid_price in
      let* proposal_adjusted := adjust_proposal_to_budget h proposal in
      update (set_last_mid_price (Some new_mid_price)) ;;
      executor_actions h proposal_adjusted
    else Py.ret [].

(** [stop_actions_proposal] (lines 191-192). *)
Definition stop_actions_proposal : list unit := [].

End RsiAmmV2.

(** ** A sample framework, for running the methods on concrete inputs *)

Module Sample.
Import Host.

Definition candle (c : Q) : Candle := mkCandle c c c c 1 (F64.of_Z 5000).

(** A candle table of [n] rows. *)
Definition table (n : nat) : list Candle := repeat (candle 100) n.

(** A framework that is ready at time [now], quotes [mid] as mid price,
    serves the candle table [df], reports the float nearest [rsi] as
    oscillator value and the float nearest [natr] as raw volatility value on
    every row, and leaves order candidates as they are. *)
Definition host (now mid : Q) (df : list Candle) (rsi natr : Q) : Host.t :=
  {| ready := true;
     current_timestamp := now;
     get_price_by_type := fun _ _ _ => mid;
     feed_candles_df := df;
     get_candles_df := fun _ _ _ _ => df;
     ta_rsi := fun _ _ _ => F64.of_Q rsi;
     ta_natr := fun _ _ _ => F64.of_Q natr;
     adjust_candidates := fun proposal _ => proposal;
     get_active_orders := fun _ => [] |}.

(** What the strategy base class of the second variant would have to bind
    for the refresh timer to be readable. *)
Definition timer_attrs : gmap string Py.value :=
  list_to_map [ ("create_timestamp", Py.Int 0); ("rsi_refresh_time", Py.Int 15) ].

End Sample.

(** ** The specification's vocabulary *)

Module Spec.

(** The signal of the data model: BUY(+1), SELL(-1), NEUTRAL(0). *)
Inductive Signal : Type := BUY | SELL | NEUTRAL.

Definition code (s : Signal) : Z :=
  match s with BUY => 1 | SELL => -1 | NEUTRAL => 0 end%Z.

(** The signal a cached value stands for in [create_proposal]: [1] is
    BUY, [-1] is SELL, anything else leaves the mid price alone. *)
Definition of_int (z : Z) : Signal :=
  if (z =? 1)%Z then BUY else if (z =? -1)%Z then SELL else NEUTRAL.

Definition of_cached (o : option Z) : Signal :=
  match o with Some z => of_int z | None => NEUTRAL end.

(** [compute_signal], in the specification's words, on the latest
    oscillator value. *)
Definition compute_signal (latest : F64.t) (low_threshold high_threshold : Q) : Signal :=
  if F64.lt latest low_threshold then BUY
  else if F64.gt latest high_threshold then SELL
  else NEUTRAL.

(** The latest value of an indicator column over the candle table [df]:
    the value at its last row. *)
Definition latest {A} (indicator : list Host.Candle -> nat -> A) (df : list Host.Candle)
  : A :=
  indicator df (pred (length df)).

(** The calls [place_orders] makes for a proposal. *)
Definition placed (connector : string) (proposal : list Host.OrderCandidate)
  : list Host.call :=
  flat_map
    (fun order =>
       match Host.order_side order with
       | Host.SELL => [Host.sell connector (Host.trading_pair order) (Host.amount order)
                         (Host.order_type order) (Host.price order)]
       | Host.BUY => [Host.buy connector (Host.trading_pair order) (Host.amount order)
                        (Host.order_type order) (Host.price order)]
       | _ => []
       end)
    proposal.

(** The calls [cancel_all_orders] makes for the active orders. *)
Definition cancelled (connector : string) (active : list Host.ActiveOrder)
  : list Host.call :=
  (fun order => Host.cancel connector (Host.active_trading_pair order)
                            (Host.client_order_id order)) <$> active.

End Spec.

(** ** The second variant: markets and start-up *)

Module RsiAmmV2Start.
Module Config := RsiAmmV2Config.

(** The framework as [start] uses it: the connectors of the strategy (the
    values of [self.connectors], by name), which of them are perpetual
    markets, and the trading pairs the data provider knows for each. *)
Record Exchanges : Type := mkExchanges {
  connectors : list string;
  is_perpetual : string -> bool;
  get_trading_pairs : string -> list string
}.

(** What [apply_initial_setting] asks of a connector. *)
Inductive setting : Type :=
| set_position_mode (connector : string) (position_mode : Py.value)
| set_leverage (connector trading_pair : string) (leverage : Py.value).

(** The state [start] runs on: the strategy object and the settings made so
    far (oldest first). *)
Record boot : Type := mkBoot { strategy : RsiAmmV2.t; settings : list setting }.

Definition apply_setting (c : setting) : Py.M boot unit :=
  Py.modify (fun b => mkBoot (strategy b) (settings b ++ [c])).

Definition config_attr (name : string) : Py.M boot Py.value :=
  fun b => (Py.getattr (Config.attrs (RsiAmmV2.config (strategy b))) name, b).

(** The inner loop of [apply_initial_setting] (lines 198-199). *)
Fixpoint set_leverages (connector : string) (trading_pairs : list string)
  : Py.M boot unit :=
  match trading_pairs with
  | [] => Py.ret tt
  | trading_pair :: rest =>
      let* leverage := config_attr "leverage" in
      apply_setting (set_leverage connector trading_pair leverage) ;;
      set_leverages connector rest
  end.

(** The outer loop of [apply_initial_setting] (lines 195-199). *)
Fixpoint apply_to_connectors (x : Exchanges) (names : list string) : Py.M boot unit :=
  match names with
  | [] => Py.ret tt
  | connector :: rest =>
      (if is_perpetual x connector then
         let* position_mode := config_attr "position_mode" in
         apply_setting (set_position_mode connector position_mode) ;;
         set_leverages connector (get_trading_pairs x connector)
       else Py.ret tt) ;;
      apply_to_connectors x rest
  end.

(** [apply_initial_setting] (lines 194-199). *)
Definition apply_initial_setting (x : Exchanges) : Py.M boot unit :=
  apply_to_connectors x (connectors x).

(** [start] (lines 103-110). *)
Definition start (x : Exchanges) (timestamp : Q) : Py.M boot unit :=
  Py.modify (fun b => mkBoot (RsiAmmV2.setattr "_last_timestamp" (Py.Num timestamp)
                                (strategy b))
                             (settings b)) ;;
  apply_initial_setting x.

(** The settings [apply_initial_setting] makes when the configuration
    defines [position_mode] and [leverage]: for each perpetual connector, its
    position mode and then the leverage of each of its trading pairs. *)
Definition settings_of (x : Exchanges) (position_mode leverage : Py.value)
           (names : list string) : list setting :=
  flat_map
    (fun connector =>
       if is_perpetual x connector then
         set_position_mode connector position_mode
         :: ((fun trading_pair => set_leverage connector trading_pair leverage)
               <$> get_trading_pairs x connector)
       else [])
    names.

End RsiAmmV2Start.
(** ** Runs of ticks *)

Module Runs.

(** The values a cached signal takes. *)
Definition valid_signal (z : Z) : Prop := z = (-1)%Z \/ z = 0%Z \/ z = 1%Z.

(** The strategy object and the calls made after the ticks [hs] of the first
    variant, one per state of the framework, each run to its end whether it
    returns or raises. *)
Fixpoint ticks (hs : list Host.t) (r : run RSIAMM.t) : run RSIAMM.t :=
  match hs with
  | [] => r
  | h :: rest => ticks rest (snd (RSIAMM.on_tick h r))
  end.

(** The same for the second variant. *)
Fixpoint ticks2 (hs : list Host.t) (r : run RsiAmmV2.t) : run RsiAmmV2.t :=
  match hs with
  | [] => r
  | h :: rest => ticks2 rest (snd (RsiAmmV2.create_actions_proposal h r))
  end.

(** The value [get_rsi_signal] reads at [iat[-1, -1]] when the candle feed
    is not empty: the latest RSI value on more than 7 rows, and the last
    column of the feed's own table otherwise. *)
Definition rsi_value (h : Host.t) : F64.t :=
  match RSIAMM.iat_last_last (RSIAMM.get_processed_df h) with
  | Py.Return v => v
  | Py.Raise _ => S754_nan
  end.

(** The log calls of [get_rsi_signal] for the value it reads. *)
Definition rsi_logs (rsi_value : F64.t) : list Host.call :=
  Host.log_float "RSI signal is" rsi_value
  :: (if F64.gt rsi_value 70 then
        [Host.log "RSI signal is over 70 - adjusting mid price" None]
      else if F64.lt rsi_value 30 then
        [Host.log "RSI signal is under 30 - adjusting mid price" None]
      else []).

(** The signal [get_rsi_signal] returns for the value it reads. *)
Definition rsi_signal_of (rsi_value : F64.t) : Z :=
  (if F64.gt rsi_value 70 then -1 else if F64.lt rsi_value 30 then 1 else 0)%Z.

(** The object after the refresh branch of [on_tick] (lines 67-70), when
    the candle feed is not empty: as it was before the deadline, with the
    recomputed signal and the new deadline from the deadline on. *)
Definition refreshed (h : Host.t) (s : RSIAMM.t) : RSIAMM.t :=
  if Py.le (RSIAMM.create_timestamp s) (Host.current_timestamp h) then
    RSIAMM.set_create_timestamp
      (RSIAMM.rsi_refresh_time s + Host.current_timestamp h)
      (RSIAMM.set_rsi_signal (rsi_signal_of (rsi_value h)) s)
  else s.

(** The log calls of that branch. *)
Definition refresh_logs (h : Host.t) (s : RSIAMM.t) : list Host.call :=
  if Py.le (RSIAMM.create_timestamp s) (Host.current_timestamp h) then
    rsi_logs (rsi_value h)
  else [].

(** The mid price a tick of the first variant reads. *)
Definition mid_price (h : Host.t) (s : RSIAMM.t) : Q :=
  Host.get_price_by_type h (RSIAMM.exchange s) (RSIAMM.trading_pair s)
    (RSIAMM.price_source s).

(** The candle table [get_natr] of the first variant reads, the window the
    indicator library uses on it, and the volatility [get_natr] computes
    when the library computes a column. *)
Definition natr_df (h : Host.t) (s : RSIAMM.t) : list Host.Candle :=
  Host.get_candles_df h (RSIAMM.exchange s) (RSIAMM.trading_pair s)
    (RSIAMM.interval s) (RSIAMM.max_records s).

Definition natr_length (s : RSIAMM.t) : Z := Host.ta_length (RSIAMM.natr_period s) 14.

Definition natr (h : Host.t) (s : RSIAMM.t) : F64.t :=
  F64.div (Spec.latest (Host.ta_natr h (natr_length s)) (natr_df h s)) (F64.of_Z 100).

(** The calls of a tick that re-quotes, up to the cancellations. *)
Definition requote_calls (h : Host.t) (s : RSIAMM.t) : list Host.call :=
  refresh_logs h s
  ++ [Host.log "Mid price is" (Some (mid_price h s))]
  ++ Spec.cancelled (RSIAMM.exchange s) (Host.get_active_orders h (RSIAMM.exchange s)).

(** The second half of [on_tick] (lines 72-80), for the mid price read at
    its start. *)
Definition requote (h : Host.t) (new_mid_price : Q) : Py.M (run RSIAMM.t) unit :=
  let* s := this in
  if RSIAMM.should_requote (RSIAMM.last_mid_price s) new_mid_price (RSIAMM.buffer_size s)
  then
    emit (Host.log "Mid price is" (Some new_mid_price)) ;;
    RSIAMM.cancel_all_orders h ;;
    let* proposal := RSIAMM.create_proposal h new_mid_price in
    let* proposal_adjusted := RSIAMM.adjust_proposal_to_budget h proposal in
    RSIAMM.place_orders proposal_adjusted ;;
    update (RSIAMM.set_last_mid_price (Some new_mid_price))
  else Py.ret tt.

(** The fields of the first variant that no method assigns. *)
Definition parameters (s : RSIAMM.t)
  : Q * Q * Q * Q * string * string * string * Z * Q * Q * Host.PriceType * Z :=
  (RSIAMM.bid_spread s, RSIAMM.ask_spread s, RSIAMM.rsi_refresh_time s,
   RSIAMM.order_amount s, RSIAMM.trading_pair s, RSIAMM.exchange s,
   RSIAMM.interval s, RSIAMM.natr_period s, RSIAMM.buffer_size s,
   RSIAMM.rsi_spread_change_percentage s, RSIAMM.price_source s,
   RSIAMM.max_records s).

End Runs.

(** ** Comparisons *)

Lemma Py_lt_iff (x y : Q) : Py.lt x y = true <-> x < y.
Proof.
  unfold Py.lt. rewrite Qlt_alt. destruct (x ?= y); split; congruence.
Qed.

Lemma Py_lt_false_iff (x y : Q) : Py.lt x y = false <-> y <= x.
Proof.
  rewrite <- Bool.not_true_iff_false, Py_lt_iff. split.
  - apply Qnot_lt_le.
  - apply Qle_not_lt.
Qed.

Lemma Py_gt_iff (x y : Q) : Py.gt x y = true <-> y < x.
Proof. apply Py_lt_iff. Qed.

Lemma Py_le_iff (x y : Q) : Py.le x y = true <-> x <= y.
Proof. apply Qle_bool_iff. Qed.

Lemma Py_le_false_iff (x y : Q) : Py.le x y = false <-> y < x.
Proof.
  rewrite <- Bool.not_true_iff_false, Py_le_iff. split.
  - apply Qnot_le_lt.
  - apply Qlt_not_le.
Qed.

(** ** Decimal rounding *)












(** ** Binary64 numbers *)














(** ** Float comparisons *)

(** A comparison of a float with a number holds only for a float that is
    not NaN; for a finite float it is the comparison of its value. *)
Lemma F64_lt_finite (x : F64.t) (y : Q) :
  F64.finite x = true -> (F64.lt x y = true <-> F64.value x < y).
Proof.
  destruct x; try discriminate; intros _; unfold F64.lt; apply Py_lt_iff.
Qed.

Lemma F64_gt_finite (x : F64.t) (y : Q) :
  F64.finite x = true -> (F64.gt x y = true <-> y < F64.value x).
Proof.
  destruct x; try discriminate; intros _; unfold F64.gt; apply Py_gt_iff.
Qed.

(** No float is below [low] and above [high] when [low <= high]. *)
Lemma F64_lt_gt_exclusive (x : F64.t) (low high : Q) :
  low <= high -> F64.lt x low = true -> F64.gt x high = true -> False.
Proof.
  intros Hlh Hlt Hgt. destruct x as [s|s| |s m e].
  - apply (F64_lt_finite (S754_zero s)) in Hlt; [|reflexivity].
    apply (F64_gt_finite (S754_zero s)) in Hgt; [|reflexivity]. lra.
  - destruct s; discriminate.
  - discriminate.
  - apply (F64_lt_finite (S754_finite s m e)) in Hlt; [|reflexivity].
    apply (F64_gt_finite (S754_finite s m e)) in Hgt; [|reflexivity]. lra.
Qed.

(** ** Candle tables *)

Lemma last_imap {A B} (f : nat -> A -> B) (l : list A) :
  last (imap f l) = f (pred (length l)) <$> last l.
Proof.
  rewrite !last_lookup, length_imap. apply list_lookup_imap.
Qed.

Lemma last_is_Some_nonempty {A} (l : list A) : l <> [] -> exists x, last l = Some x.
Proof.
  intros Hl. destruct (last l) as [x|] eqn:E; [eauto|].
  apply last_None in E. contradiction.
Qed.

Lemma empty_fmap {A B} (f : A -> B) (l : list A) : Host.empty (f <$> l) = Host.empty l.
Proof. destruct l; reflexivity. Qed.

Lemma empty_imap {A B} (f : nat -> A -> B) (l : list A) :
  Host.empty (imap f l) = Host.empty l.
Proof. destruct l; reflexivity. Qed.

Lemma empty_false_iff {A} (l : list A) : Host.empty l = false <-> l <> [].
Proof. destruct l; simpl; split; congruence. Qed.

(** The window the indicator library uses is positive. *)
Lemma ta_length_pos (length default : Z) :
  (0 < default)%Z -> (0 < Host.ta_length length default)%Z.
Proof.
  intros Hd. unfold Host.ta_length. destruct (Z.ltb_spec 0 length); lia.
Qed.

(** The indicator library computes nothing over an empty table. *)
Lemma ta_computes_nonempty {A} (length : Z) (df : list A) :
  (0 <= length)%Z -> Host.ta_computes length df = true -> df <> [].
Proof.
  intros Hlen H Hdf. subst df. unfold Host.ta_computes in H. simpl in H.
  apply Z.ltb_lt in H. lia.
Qed.

Lemma ta_computes_iff {A} (length : Z) (df : list A) :
  Host.ta_computes length df = true <-> (length < Z.of_nat (List.length df))%Z.
Proof. unfold Host.ta_computes. apply Z.ltb_lt. Qed.

(** The latest value of a computed column. *)
Lemma iloc_last_ta_column (values : list Host.Candle -> nat -> F64.t)
      (df : list Host.Candle) :
  df <> [] ->
  Host.iloc_last (Host.ta_column values df) = Py.Return (Spec.latest values df).
Proof.
  intros Hne. destruct (last_is_Some_nonempty _ Hne) as [k Hk].
  unfold Host.iloc_last, Host.ta_column. rewrite last_imap, Hk. reflexivity.
Qed.

(** ** The signal computations *)

(** On a non-empty candle feed [iat[-1, -1]] reads a value. *)
Lemma RSIAMM_iat_value (h : Host.t) :
  Host.feed_candles_df h <> [] ->
  RSIAMM.iat_last_last (RSIAMM.get_processed_df h) = Py.Return (Runs.rsi_value h).
Proof.
  intros Hne. destruct (last_is_Some_nonempty _ Hne) as [k Hk].
  unfold Runs.rsi_value, RSIAMM.iat_last_last, RSIAMM.get_processed_df.
  destruct (Host.ta_computes 7 (Host.feed_candles_df h)).
  - rewrite last_imap, Hk. reflexivity.
  - rewrite fmap_last, Hk. reflexivity.
Qed.

(** On more than 7 rows the value read is the latest RSI value. *)
Lemma rsi_value_computed (h : Host.t) :
  Host.ta_computes 7 (Host.feed_candles_df h) = true ->
  Runs.rsi_value h = Spec.latest (Host.ta_rsi h 7) (Host.feed_candles_df h).
Proof.
  intros Hc.
  assert (Host.feed_candles_df h <> []) as Hne
    by (apply (ta_computes_nonempty 7); [lia | exact Hc]).
  destruct (last_is_Some_nonempty _ Hne) as [k Hk].
  unfold Runs.rsi_value, RSIAMM.iat_last_last, RSIAMM.get_processed_df.
  rewrite Hc, last_imap, Hk. reflexivity.
Qed.

(** On at most 7 rows it is the last column of the feed's own table. *)
Lemma rsi_value_short (h : Host.t) (k : Host.Candle) :
  Host.ta_computes 7 (Host.feed_candles_df h) = false ->
  last (Host.feed_candles_df h) = Some k ->
  Runs.rsi_value h = Host.taker_buy_quote_volume k.
Proof.
  intros Hc Hk.
  unfold Runs.rsi_value, RSIAMM.iat_last_last, RSIAMM.get_processed_df.
  rewrite Hc, fmap_last, Hk. reflexivity.
Qed.

(** On a non-empty candle feed [get_rsi_signal] logs the value it read and,
    outside [30, 70], the adjustment; it returns the signal and leaves the
    object alone. *)
Lemma RSIAMM_get_rsi_signal_run (h : Host.t) (r : run RSIAMM.t) :
  let v := Runs.rsi_value h in
  Host.feed_candles_df h <> [] ->
  RSIAMM.get_rsi_signal h r =
  (Py.Return (Runs.rsi_signal_of v), mkRun (self r) (calls r ++ Runs.rsi_logs v)).
Proof.
  intros v Hne.
  unfold RSIAMM.get_rsi_signal, Py.bind, Py.lift, emit, Py.modify, Py.ret.
  rewrite (RSIAMM_iat_value h Hne). fold v.
  unfold Runs.rsi_logs, Runs.rsi_signal_of.
  destruct (F64.gt v 70); [cbn [self calls]; rewrite <- app_assoc; reflexivity|].
  destruct (F64.lt v 30); cbn [self calls]; [rewrite <- app_assoc|]; reflexivity.
Qed.

(** On an empty candle feed [get_rsi_signal] raises. *)
Lemma RSIAMM_get_rsi_signal_empty (h : Host.t) (r : run RSIAMM.t) :
  Host.feed_candles_df h = [] ->
  RSIAMM.get_rsi_signal h r =
  (Py.Raise (Py.IndexError "index -1 is out of bounds for axis 0 with size 0"), r).
Proof.
  intros Hdf. unfold RSIAMM.get_rsi_signal, RSIAMM.get_processed_df, Py.bind, Py.lift.
  rewrite Hdf. reflexivity.
Qed.

(** With the thresholds in order, testing the high threshold first (as the
    first variant does) or last (as the second does) gives the signal of the
    specification. *)
Lemma compute_signal_code (v : F64.t) (low high : Q) :
  low <= high ->
  Runs.rsi_signal_of v = Spec.code (Spec.compute_signal v 30 70) /\
  (if F64.gt v high then -1 else if F64.lt v low then 1 else 0)%Z
  = Spec.code (Spec.compute_signal v low high).
Proof.
  intros Hlh. unfold Spec.compute_signal, Runs.rsi_signal_of. split.
  - destruct (F64.gt v 70) eqn:Hgt, (F64.lt v 30) eqn:Hlt; try reflexivity.
    exfalso. apply (F64_lt_gt_exclusive v 30 70); [lra | assumption | assumption].
  - destruct (F64.gt v high) eqn:Hgt, (F64.lt v low) eqn:Hlt; try reflexivity.
    exfalso. exact (F64_lt_gt_exclusive v low high Hlh Hlt Hgt).
Qed.

Lemma rsi_signal_of_valid (v : F64.t) : Runs.valid_signal (Runs.rsi_signal_of v).
Proof.
  unfold Runs.valid_signal, Runs.rsi_signal_of.
  destruct (F64.gt v 70); [|destruct (F64.lt v 30)]; auto.
Qed.

(** The column that line 159 names is in the table exactly when the
    configured window is positive and the table has more rows than that. *)
Lemma has_rsi_column_iff (c : RsiAmmV2Config.t) (df : list Host.Candle) :
  RsiAmmV2.has_rsi_column c df = true
  <-> (0 < RsiAmmV2Config.rsi_period c)%Z /\
      (RsiAmmV2Config.rsi_period c < Z.of_nat (List.length df))%Z.
Proof.
  unfold RsiAmmV2.has_rsi_column, Host.ta_length, Host.ta_computes.
  rewrite andb_true_iff, Z.ltb_lt, Z.eqb_eq.
  destruct (Z.ltb_spec 0 (RsiAmmV2Config.rsi_period c)); lia.
Qed.

Lemma has_rsi_column_length (c : RsiAmmV2Config.t) (df : list Host.Candle) :
  RsiAmmV2.has_rsi_column c df = true ->
  Host.ta_length (RsiAmmV2Config.rsi_period c) 14 = RsiAmmV2Config.rsi_period c /\
  df <> [].
Proof.
  intros H. apply has_rsi_column_iff in H. split.
  - unfold Host.ta_length. destruct (Z.ltb_spec 0 (RsiAmmV2Config.rsi_period c)); lia.
  - intros ->. simpl in H. lia.
Qed.

(** When the column is there, [get_signal] of the second variant returns
    the signal of the latest RSI value. *)
Lemma RsiAmmV2_get_signal_value (h : Host.t) (connector_name trading_pair : string)
      (r : run RsiAmmV2.t) :
  let c := RsiAmmV2.config (self r) in
  let df := Host.get_candles_df h connector_name trading_pair
              (RsiAmmV2Config.interval c) (RsiAmmV2.max_records (self r)) in
  RsiAmmV2.has_rsi_column c df = true ->
  RsiAmmV2.get_signal h connector_name trading_pair r =
  (Py.Return
     (Some (let v := Spec.latest (Host.ta_rsi h (RsiAmmV2Config.rsi_period c)) df in
            if F64.gt v (RsiAmmV2Config.rsi_high c) then -1
            else if F64.lt v (RsiAmmV2Config.rsi_low c) then 1 else 0)%Z),
   r).
Proof.
  intros c df Hcol. destruct (has_rsi_column_length c df Hcol) as [Hlen Hne].
  destruct (last_is_Some_nonempty _ Hne) as [k Hk].
  unfold RsiAmmV2.get_signal, Py.bind, this, Py.lift, Py.ret.
  fold c. fold df. rewrite Hcol, Hlen.
  rewrite !empty_fmap, empty_imap.
  apply empty_false_iff in Hne. rewrite Hne. simpl negb. cbv iota.
  unfold Host.iloc_last. rewrite !fmap_last, last_imap, Hk. simpl.
  fold (Spec.latest (Host.ta_rsi h (RsiAmmV2Config.rsi_period c)) df).
  destruct (F64.lt _ (RsiAmmV2Config.rsi_low c)); simpl;
    destruct (F64.gt _ (RsiAmmV2Config.rsi_high c)); reflexivity.
Qed.

(** When it is not, line 159 raises [KeyError]: so on every table with at
    most [rsi_period] rows, the empty one included. *)
Lemma RsiAmmV2_get_signal_missing (h : Host.t) (connector_name trading_pair : string)
      (r : run RsiAmmV2.t) :
  let c := RsiAmmV2.config (self r) in
  RsiAmmV2.has_rsi_column c
    (Host.get_candles_df h connector_name trading_pair
       (RsiAmmV2Config.interval c) (RsiAmmV2.max_records (self r))) = false ->
  RsiAmmV2.get_signal h connector_name trading_pair r =
  (Py.Raise (Py.KeyError (RsiAmmV2.rsi_column c)), r).
Proof.
  intros c Hcol. unfold RsiAmmV2.get_signal, Py.bind, this, Py.lift, Py.raise.
  fold c. rewrite Hcol. reflexivity.
Qed.

(** ** Frame rules for method bodies *)

Section Frame.
Context {S T : Type} (proj : S -> T).

Lemma preserves_ret {A} (a : A) : preserves proj (Py.ret a).
Proof. intros r. reflexivity. Qed.

Lemma preserves_raise {A} (e : Py.exn) : preserves proj (@Py.raise _ A e).
Proof. intros r. reflexivity. Qed.

Lemma preserves_lift {A} (o : Py.outcome A) : preserves proj (Py.lift o).
Proof. intros r. reflexivity. Qed.

Lemma preserves_this : preserves proj this.
Proof. intros r. reflexivity. Qed.

Lemma preserves_emit (c : Host.call) : preserves proj (emit c).
Proof. intros r. reflexivity. Qed.

Lemma preserves_update (f : S -> S) :
  (forall s, proj (f s) = proj s) -> preserves proj (update f).
Proof. intros Hf r. apply Hf. Qed.

Lemma preserves_bind {A B} (m : Py.M (run S) A) (k : A -> Py.M (run S) B) :
  preserves proj m -> (forall a, preserves proj (k a)) ->
  preserves proj (Py.bind m k).
Proof.
  intros Hm Hk r. unfold Py.bind. specialize (Hm r).
  destruct (m r) as [[a|e] r']; simpl in *.
  - rewrite Hk. exact Hm.
  - exact Hm.
Qed.

(** A call that raises while binding its arguments runs nothing after it. *)
Lemma preserves_bind_raise {A B} (e : Py.exn) (k : A -> Py.M (run S) B) :
  preserves proj (Py.bind (Py.lift (Py.Raise e)) k).
Proof. intros r. reflexivity. Qed.

Lemma preserves_for_each {A} (xs : list A) (body : A -> Py.M (run S) unit) :
  (forall x, preserves proj (body x)) -> preserves proj (for_each xs body).
Proof.
  intros Hbody. induction xs as [|x xs IH]; simpl.
  - apply preserves_ret.
  - apply preserves_bind; [apply Hbody | intros _; exact IH].
Qed.

Lemma preserves_if {A} (b : bool) (m1 m2 : Py.M (run S) A) :
  preserves proj m1 -> preserves proj m2 -> preserves proj (if b then m1 else m2).
Proof. destruct b; auto. Qed.

End Frame.

Create HintDb frame discriminated.
#[export] Hint Resolve preserves_ret preserves_raise preserves_lift preserves_this
  preserves_emit preserves_bind preserves_for_each preserves_if : frame.

(** Steps through a method body, one frame rule at a time. *)
Ltac frame_step :=
  first
    [ apply preserves_ret | apply preserves_raise | apply preserves_lift
    | apply preserves_this | apply preserves_emit | apply preserves_bind_raise
    | apply preserves_bind | apply preserves_for_each | apply preserves_if
    | apply preserves_update; intros; reflexivity
    | match goal with
      | |- preserves _ (match ?x with _ => _ end) => destruct x
      end
    | progress cbv zeta
    | progress intros ].

Ltac frame := repeat frame_step.
Section RSIAMMFrame.
Context {T : Type} (proj : RSIAMM.t -> T) (h : Host.t).

Lemma RSIAMM_get_rsi_signal_frame : preserves proj (RSIAMM.get_rsi_signal h).
Proof. unfold RSIAMM.get_rsi_signal. frame. Qed.

Lemma RSIAMM_get_natr_frame : preserves proj (RSIAMM.get_natr h).
Proof. unfold RSIAMM.get_natr. frame. Qed.

Lemma RSIAMM_create_proposal_frame (mid_price : Q) :
  preserves proj (RSIAMM.create_proposal h mid_price).
Proof.
  unfold RSIAMM.create_proposal. frame.
Qed.

Lemma RSIAMM_place_orders_frame (proposal : list Host.OrderCandidate) :
  preserves proj (RSIAMM.place_orders proposal).
Proof. unfold RSIAMM.place_orders, RSIAMM.place_order. frame. Qed.

Lemma RSIAMM_cancel_all_orders_frame : preserves proj (RSIAMM.cancel_all_orders h).
Proof. unfold RSIAMM.cancel_all_orders. frame. Qed.

End RSIAMMFrame.

(** Before the deadline a tick of the first variant leaves the timer alone. *)
Lemma RSIAMM_on_tick_before_deadline (h : Host.t) (r : run RSIAMM.t) :
  Host.current_timestamp h < RSIAMM.create_timestamp (self r) ->
  RSIAMM.timer (self (snd (RSIAMM.on_tick h r))) = RSIAMM.timer (self r).
Proof.
  intros Hlt. apply Py_le_false_iff in Hlt.
  unfold RSIAMM.on_tick. destruct (Host.ready h); cbn [negb]; [|reflexivity].
  unfold Py.bind at 1. unfold this at 1. cbn beta iota zeta.
  rewrite Hlt.
  match goal with
  | |- ?p (self (snd (?m r))) = _ => enough (preserves p m) as H by exact (H r)
  end.
  frame. unfold RSIAMM.place_order. frame.
Qed.

(** The two assignments of the refresh branch (lines 69-70), once the
    signal has been computed. *)
Lemma RSIAMM_refresh_assignments (signal : Z) (now : Q) (r : run RSIAMM.t) :
  (update (RSIAMM.set_rsi_signal signal) ;;
   let* s := this in
   update (RSIAMM.set_create_timestamp (RSIAMM.rsi_refresh_time s + now))) r
  = (Py.Return tt,
     mkRun (RSIAMM.set_create_timestamp (RSIAMM.rsi_refresh_time (self r) + now)
              (RSIAMM.set_rsi_signal signal (self r)))
           (calls r)).
Proof. reflexivity. Qed.
(** A tick of the first variant that finds the framework not ready does
    nothing. *)
Lemma RSIAMM_on_tick_not_ready (h : Host.t) (r : run RSIAMM.t) :
  Host.ready h = false -> RSIAMM.on_tick h r = (Py.Return tt, r).
Proof. intros Hready. unfold RSIAMM.on_tick. rewrite Hready. reflexivity. Qed.

(** ** The second variant's tick *)






(** At or after the deadline, on a non-empty candle feed, a tick of the
    first variant stores the recomputed signal and sets the deadline one
    refresh interval after the current time; this holds whether or not the
    rest of the tick raises. *)
Lemma RSIAMM_on_tick_refresh (h : Host.t) (r : run RSIAMM.t) :
  Host.ready h = true ->
  RSIAMM.create_timestamp (self r) <= Host.current_timestamp h ->
  Host.feed_candles_df h <> [] ->
  RSIAMM.timer (self (snd (RSIAMM.on_tick h r))) =
  (Runs.rsi_signal_of (Runs.rsi_value h),
   RSIAMM.rsi_refresh_time (self r) + Host.current_timestamp h).
Proof.
  intros Hready Hle Hfeed. apply Py_le_iff in Hle.
  unfold RSIAMM.on_tick. rewrite Hready. cbn [negb].
  unfold Py.bind at 1. unfold this at 1. cbn beta iota zeta.
  rewrite Hle.
  unfold Py.bind at 1. unfold Py.bind at 1.
  rewrite (RSIAMM_get_rsi_signal_run h r Hfeed). cbv zeta.
  rewrite RSIAMM_refresh_assignments. cbn [self calls].
  match goal with
  | |- ?p (self (snd (?m ?r0))) = _ =>
      enough (preserves p m) as H by (rewrite (H r0); reflexivity)
  end.
  frame. unfold RSIAMM.place_order. frame.
Qed.



(** ** The volatility read and the proposal *)

(** The first variant defines [natr_period] on the strategy class. *)
Lemma RSIAMM_natr_period_defined (s : RSIAMM.t) :
  Py.getattr (RSIAMM.attrs s) "natr_period" = Py.Return (Py.Int (RSIAMM.natr_period s)).
Proof.
  unfold Py.getattr, RSIAMM.attrs.
  erewrite lookup_union_Some_l; reflexivity.
Qed.

(** The class body of [RsiAmmV2Config] binds no [natr_period]: the read
    succeeds only if the configuration base class binds one. *)
Lemma RsiAmmV2Config_natr_period (c : RsiAmmV2Config.t) :
  RsiAmmV2Config.attrs c !! "natr_period" = RsiAmmV2Config.base_fields c !! "natr_period".
Proof. unfold RsiAmmV2Config.attrs. apply lookup_union_r. reflexivity. Qed.
(** [get_natr] of the first variant: it never changes the object; it
    returns the latest NATR value divided by 100 when the indicator library
    computes a column, and raises at [natr.iloc] otherwise. *)
Lemma RSIAMM_get_natr_run (h : Host.t) (r : run RSIAMM.t) :
  let s := self r in
  RSIAMM.get_natr h r =
  (if Host.ta_computes (Runs.natr_length s) (Runs.natr_df h s)
   then Py.Return (Runs.natr h s)
   else Py.Raise (Py.AttributeError "iloc"), r).
Proof.
  intros s. unfold RSIAMM.get_natr. unfold Py.bind at 1. unfold this at 1.
  cbn beta iota. fold s.
  unfold Py.bind at 1. unfold Py.lift at 1. rewrite RSIAMM_natr_period_defined.
  unfold Py.bind at 1. unfold Py.lift at 1. cbn [Py.as_int]. cbn beta iota zeta.
  fold (Runs.natr_length s). fold (Runs.natr_df h s).
  destruct (Host.ta_computes (Runs.natr_length s) (Runs.natr_df h s)) eqn:Hc;
    [|reflexivity].
  assert (Runs.natr_df h s <> []) as Hne.
  { apply (ta_computes_nonempty (Runs.natr_length s)); [|exact Hc].
    pose proof (ta_length_pos (RSIAMM.natr_period s) 14 ltac:(lia)).
    unfold Runs.natr_length. lia. }
  unfold Py.bind, Py.lift, Py.ret.
  rewrite (iloc_last_ta_column _ _ Hne). reflexivity.
Qed.

Lemma RsiAmmV2_get_natr_undefined (h : Host.t) (r : run RsiAmmV2.t) :
  RsiAmmV2Config.base_fields (RsiAmmV2.config (self r)) !! "natr_period" = None ->
  RsiAmmV2.get_natr h r = (Py.Raise (Py.AttributeError "natr_period"), r).
Proof.
  intros Hbase. unfold RsiAmmV2.get_natr, Py.bind, this, Py.lift, Py.getattr.
  rewrite RsiAmmV2Config_natr_period, Hbase. reflexivity.
Qed.

(** [create_proposal] of the first variant: the two orders priced by
    [quotes] at the volatility read, when the read returns and no product is
    invalid. *)
Lemma RSIAMM_create_proposal_run (h : Host.t) (mid_price : Q) (r : run RSIAMM.t) :
  let s := self r in
  RSIAMM.create_proposal h mid_price r =
  (if Host.ta_computes (Runs.natr_length s) (Runs.natr_df h s) then
     match RSIAMM.quotes s mid_price (Runs.natr h s) with
     | Py.Return prices => Py.Return (RSIAMM.orders s (fst prices) (snd prices))
     | Py.Raise e => Py.Raise e
     end
   else Py.Raise (Py.AttributeError "iloc"), r).
Proof.
  intros s. unfold RSIAMM.create_proposal. unfold Py.bind at 1.
  rewrite RSIAMM_get_natr_run. fold s.
  destruct (Host.ta_computes (Runs.natr_length s) (Runs.natr_df h s)); [|reflexivity].
  unfold Py.bind, this, Py.lift, Py.ret. fold s.
  destruct (RSIAMM.quotes s mid_price (Runs.natr h s)); reflexivity.
Qed.

(** The same, from the value the volatility read returns. *)
Lemma RSIAMM_create_proposal_from_natr (h : Host.t) (mid_price : Q) (natr : F64.t)
      (r : run RSIAMM.t) :
  fst (RSIAMM.get_natr h r) = Py.Return natr ->
  RSIAMM.create_proposal h mid_price r =
  (match RSIAMM.quotes (self r) mid_price natr with
   | Py.Return prices => Py.Return (RSIAMM.orders (self r) (fst prices) (snd prices))
   | Py.Raise e => Py.Raise e
   end, r).
Proof.
  intros Hnatr. rewrite RSIAMM_create_proposal_run. cbv zeta.
  rewrite RSIAMM_get_natr_run in Hnatr. cbv zeta in Hnatr. cbn [fst] in Hnatr.
  destruct (Host.ta_computes _ _); [|discriminate].
  injection Hnatr as ->. reflexivity.
Qed.

Lemma RsiAmmV2_create_proposal_undefined (h : Host.t) (mid_price : Q)
      (r : run RsiAmmV2.t) :
  RsiAmmV2Config.base_fields (RsiAmmV2.config (self r)) !! "natr_period" = None ->
  RsiAmmV2.create_proposal h mid_price r =
  (Py.Raise (Py.AttributeError "natr_period"), r).
Proof.
  intros Hbase. unfold RsiAmmV2.create_proposal. unfold Py.bind at 1.
  rewrite RsiAmmV2_get_natr_undefined by assumption. reflexivity.
Qed.

(** The executor actions made from two (or more) adjusted candidates carry
    the side and the amount of the first two, and nothing of their prices. *)
Lemma RsiAmmV2_executor_actions_value (h : Host.t) (o1 o2 : Host.OrderCandidate)
      (rest : list Host.OrderCandidate) (r : run RsiAmmV2.t) :
  let c := RsiAmmV2.config (self r) in
  RsiAmmV2.executor_actions h (o1 :: o2 :: rest) r =
  (Py.Return
     [ Host.mkCreateExecutorAction
         (Host.mkPositionExecutorConfig (Host.current_timestamp h)
            (RsiAmmV2Config.trading_pair c) (RsiAmmV2Config.connector c)
            (Host.order_side o1) (Host.amount o1));
       Host.mkCreateExecutorAction
         (Host.mkPositionExecutorConfig (Host.current_timestamp h)
            (RsiAmmV2Config.trading_pair c) (RsiAmmV2Config.connector c)
            (Host.order_side o2) (Host.amount o2)) ], r).
Proof. reflexivity. Qed.
(** With an empty candle feed, a tick of the first variant that reaches
    the refresh branch raises. *)
Lemma RSIAMM_on_tick_empty_feed (h : Host.t) (r : run RSIAMM.t) :
  Host.ready h = true ->
  RSIAMM.create_timestamp (self r) <= Host.current_timestamp h ->
  Host.feed_candles_df h = [] ->
  RSIAMM.on_tick h r =
  (Py.Raise (Py.IndexError "index -1 is out of bounds for axis 0 with size 0"), r).
Proof.
  intros Hready Hle Hfeed. apply Py_le_iff in Hle.
  unfold RSIAMM.on_tick. rewrite Hready. cbn [negb].
  unfold Py.bind at 1. unfold this at 1. cbn beta iota zeta.
  rewrite Hle. unfold Py.bind at 1. unfold Py.bind at 1.
  rewrite RSIAMM_get_rsi_signal_empty by assumption. reflexivity.
Qed.
(** ** The calls of a tick of the first variant *)

(** [place_orders] makes one call per candidate with a BUY or SELL side, in
    the order of the proposal. *)
Lemma RSIAMM_place_orders_calls (proposal : list Host.OrderCandidate) (r : run RSIAMM.t) :
  RSIAMM.place_orders proposal r =
  (Py.Return tt,
   mkRun (self r) (calls r ++ Spec.placed (RSIAMM.exchange (self r)) proposal)).
Proof.
  unfold RSIAMM.place_orders. unfold Py.bind at 1. unfold this at 1.
  generalize (RSIAMM.exchange (self r)) as connector. intros connector.
  revert r. induction proposal as [|o rest IH]; intros r.
  - simpl. rewrite app_nil_r. destruct r; reflexivity.
  - cbn [for_each Spec.placed flat_map]. unfold Py.bind at 1.
    unfold RSIAMM.place_order, Spec.placed in *.
    destruct (Host.order_side o); cbn [emit Py.modify Py.ret]; rewrite IH; cbn [self calls];
      rewrite <- ?app_assoc; reflexivity.
Qed.

(** [cancel_all_orders] cancels every active order of the exchange. *)
Lemma RSIAMM_cancel_all_orders_calls (h : Host.t) (r : run RSIAMM.t) :
  RSIAMM.cancel_all_orders h r =
  (Py.Return tt,
   mkRun (self r)
     (calls r ++ Spec.cancelled (RSIAMM.exchange (self r))
                   (Host.get_active_orders h (RSIAMM.exchange (self r))))).
Proof.
  unfold RSIAMM.cancel_all_orders. unfold Py.bind at 1. unfold this at 1.
  generalize (Host.get_active_orders h (RSIAMM.exchange (self r))) as active.
  generalize (RSIAMM.exchange (self r)) as connector. intros connector active.
  revert r. induction active as [|o rest IH]; intros r.
  - simpl. rewrite app_nil_r. destruct r; reflexivity.
  - cbn [for_each]. unfold Py.bind at 1. cbn [emit Py.modify].
    rewrite IH. cbn [self calls]. unfold Spec.cancelled. cbn [fmap list_fmap].
    rewrite <- app_assoc. reflexivity.
Qed.

(** Before the deadline, with the mid price within the buffer of the
    remembered one, a tick does nothing. *)
Lemma RSIAMM_on_tick_idle (h : Host.t) (r : run RSIAMM.t) :
  let s := self r in
  let mid := Host.get_price_by_type h (RSIAMM.exchange s) (RSIAMM.trading_pair s)
               (RSIAMM.price_source s) in
  Host.current_timestamp h < RSIAMM.create_timestamp s ->
  RSIAMM.should_requote (RSIAMM.last_mid_price s) mid (RSIAMM.buffer_size s) = false ->
  RSIAMM.on_tick h r = (Py.Return tt, r).
Proof.
  intros s mid Hlt Hquote. apply Py_le_false_iff in Hlt.
  unfold RSIAMM.on_tick. destruct (Host.ready h); cbn [negb]; [|reflexivity].
  unfold Py.bind at 1. unfold this at 1. cbn beta iota zeta.
  fold s. rewrite Hlt.
  unfold Py.bind at 1. unfold Py.ret at 1. cbn beta iota.
  unfold Py.bind at 1. unfold this at 1. cbn beta iota.
  fold s. fold mid. rewrite Hquote. reflexivity.
Qed.
(** ** The two halves of a tick of the first variant *)

(** A tick on a ready framework runs the refresh branch and then the
    re-quote half on the object the branch leaves. *)
Lemma RSIAMM_on_tick_halves (h : Host.t) (r : run RSIAMM.t) :
  Host.ready h = true ->
  (RSIAMM.create_timestamp (self r) <= Host.current_timestamp h ->
   Host.feed_candles_df h <> []) ->
  RSIAMM.on_tick h r =
  Runs.requote h (Runs.mid_price h (self r))
    (mkRun (Runs.refreshed h (self r)) (calls r ++ Runs.refresh_logs h (self r))).
Proof.
  intros Hready Hfeed.
  unfold RSIAMM.on_tick. rewrite Hready. cbn [negb].
  unfold Py.bind at 1. unfold this at 1. cbn beta iota zeta.
  unfold Runs.refreshed, Runs.refresh_logs.
  destruct (Py.le (RSIAMM.create_timestamp (self r)) (Host.current_timestamp h)) eqn:Hle.
  - apply Py_le_iff in Hle. specialize (Hfeed Hle).
    unfold Py.bind at 1. unfold Py.bind at 1.
    rewrite (RSIAMM_get_rsi_signal_run h r Hfeed). cbv zeta.
    rewrite RSIAMM_refresh_assignments. reflexivity.
  - unfold Py.bind at 1. unfold Py.ret at 1. cbn beta iota.
    rewrite app_nil_r. destruct r; reflexivity.
Qed.

(** The re-quote half when the price has not moved beyond the buffer. *)
Lemma requote_idle (h : Host.t) (mid : Q) (r : run RSIAMM.t) :
  RSIAMM.should_requote (RSIAMM.last_mid_price (self r)) mid
    (RSIAMM.buffer_size (self r)) = false ->
  Runs.requote h mid r = (Py.Return tt, r).
Proof.
  intros Hquote. unfold Runs.requote. unfold Py.bind at 1. unfold this at 1.
  cbn beta iota. rewrite Hquote. reflexivity.
Qed.

(** The re-quote half when it re-quotes, the volatility can be read and the
    prices can be computed. *)
Lemma requote_places (h : Host.t) (mid : Q) (buy_price sell_price : Dec.t)
      (r : run RSIAMM.t) :
  let s := self r in
  RSIAMM.should_requote (RSIAMM.last_mid_price s) mid (RSIAMM.buffer_size s) = true ->
  Host.ta_computes (Runs.natr_length s) (Runs.natr_df h s) = true ->
  RSIAMM.quotes s mid (Runs.natr h s) = Py.Return (buy_price, sell_price) ->
  Runs.requote h mid r =
  (Py.Return tt,
   mkRun (RSIAMM.set_last_mid_price (Some mid) s)
     (calls r ++ [Host.log "Mid price is" (Some mid)]
        ++ Spec.cancelled (RSIAMM.exchange s) (Host.get_active_orders h (RSIAMM.exchange s))
        ++ Spec.placed (RSIAMM.exchange s)
             (Host.adjust_candidates h (RSIAMM.orders s buy_price sell_price) true))).
Proof.
  intros s Hquote Hdf Hprices. unfold Runs.requote. unfold Py.bind at 1. unfold this at 1.
  cbn beta iota. fold s. rewrite Hquote.
  unfold Py.bind at 1. cbn [emit Py.modify]. cbn beta iota.
  unfold Py.bind at 1. rewrite RSIAMM_cancel_all_orders_calls. cbn [self calls].
  unfold Py.bind at 1. rewrite RSIAMM_create_proposal_run. cbn [self calls]. cbv zeta.
  fold s. rewrite Hdf, Hprices. cbn [fst snd].
  unfold Py.bind at 1. unfold RSIAMM.adjust_proposal_to_budget at 1. unfold Py.ret at 1.
  cbn beta iota.
  unfold Py.bind at 1. rewrite RSIAMM_place_orders_calls. cbn [self calls].
  unfold update, Py.modify. cbn [self calls]. fold s.
  rewrite <- !app_assoc. reflexivity.
Qed.

(** The re-quote half when it re-quotes and the volatility cannot be read:
    the active orders are cancelled before [create_proposal] raises. *)
Lemma requote_fails (h : Host.t) (mid : Q) (r : run RSIAMM.t) :
  let s := self r in
  RSIAMM.should_requote (RSIAMM.last_mid_price s) mid (RSIAMM.buffer_size s) = true ->
  Host.ta_computes (Runs.natr_length s) (Runs.natr_df h s) = false ->
  Runs.requote h mid r =
  (Py.Raise (Py.AttributeError "iloc"),
   mkRun s
     (calls r ++ [Host.log "Mid price is" (Some mid)]
        ++ Spec.cancelled (RSIAMM.exchange s)
             (Host.get_active_orders h (RSIAMM.exchange s)))).
Proof.
  intros s Hquote Hdf. unfold Runs.requote. unfold Py.bind at 1. unfold this at 1.
  cbn beta iota. fold s. rewrite Hquote.
  unfold Py.bind at 1. cbn [emit Py.modify]. cbn beta iota.
  unfold Py.bind at 1. rewrite RSIAMM_cancel_all_orders_calls. cbn [self calls].
  unfold Py.bind at 1. rewrite RSIAMM_create_proposal_run. cbn [self calls]. cbv zeta.
  fold s. rewrite Hdf.
  rewrite <- !app_assoc. reflexivity.
Qed.

Lemma refreshed_last_mid_price (h : Host.t) (s : RSIAMM.t) :
  RSIAMM.last_mid_price (Runs.refreshed h s) = RSIAMM.last_mid_price s /\
  Runs.parameters (Runs.refreshed h s) = Runs.parameters s.
Proof.
  unfold Runs.refreshed.
  destruct (Py.le (RSIAMM.create_timestamp s) (Host.current_timestamp h));
    split; reflexivity.
Qed.

(** A tick on a ready framework that re-quotes, can read the volatility and
    can compute the prices. *)
Lemma RSIAMM_on_tick_quotes (h : Host.t) (buy_price sell_price : Dec.t)
      (r : run RSIAMM.t) :
  Host.ready h = true ->
  (RSIAMM.create_timestamp (self r) <= Host.current_timestamp h ->
   Host.feed_candles_df h <> []) ->
  RSIAMM.should_requote (RSIAMM.last_mid_price (self r))
    (Runs.mid_price h (self r)) (RSIAMM.buffer_size (self r)) = true ->
  Host.ta_computes (Runs.natr_length (self r)) (Runs.natr_df h (self r)) = true ->
  RSIAMM.quotes (Runs.refreshed h (self r)) (Runs.mid_price h (self r))
    (Runs.natr h (self r)) = Py.Return (buy_price, sell_price) ->
  RSIAMM.on_tick h r =
  (Py.Return tt,
   mkRun (RSIAMM.set_last_mid_price (Some (Runs.mid_price h (self r)))
            (Runs.refreshed h (self r)))
     (calls r ++ Runs.requote_calls h (self r)
        ++ Spec.placed (RSIAMM.exchange (self r))
             (Host.adjust_candidates h
                (RSIAMM.orders (Runs.refreshed h (self r)) buy_price sell_price) true))).
Proof.
  intros Hready Hfeed Hquote Hdf Hprices.
  rewrite (RSIAMM_on_tick_halves h r Hready Hfeed).
  destruct (refreshed_last_mid_price h (self r)) as [Hlast Hpar].
  unfold Runs.parameters in Hpar. injection Hpar as Hbid Hask Hrefresh Hamount Hpair
    Hexchange Hinterval Hperiod Hbuffer Hskew Hsource Hrecords.
  rewrite (requote_places h _ buy_price sell_price).
  - cbn [self calls].
    unfold Runs.requote_calls.
    rewrite Hexchange.
    rewrite <- !app_assoc. reflexivity.
  - cbn [self]. rewrite Hlast, Hbuffer. exact Hquote.
  - cbn [self]. unfold Runs.natr_df, Runs.natr_length.
    rewrite Hexchange, Hpair, Hinterval, Hrecords, Hperiod. exact Hdf.
  - cbn [self]. unfold Runs.natr, Runs.natr_df, Runs.natr_length.
    rewrite Hexchange, Hpair, Hinterval, Hrecords, Hperiod. exact Hprices.
Qed.

(** ** The quote prices *)

Lemma of_float_finite (x : F64.t) :
  F64.finite x = true -> Dec.of_float x = Dec.Fin (F64.value x).
Proof. destruct x; try discriminate; reflexivity. Qed.


(** The reference price of either variant, by the signal. *)
Lemma RSIAMM_reference_by_signal (s : RSIAMM.t) (mid_price : Q) (natr : F64.t) :
  RSIAMM.reference s mid_price natr =
  match Spec.of_int (RSIAMM.rsi_signal s) with
  | Spec.BUY =>
      Dec.mul (Dec.Fin mid_price)
        (Dec.of_float (F64.add (F64.of_Z 1) (RSIAMM.shift s natr)))
  | Spec.SELL =>
      Dec.mul (Dec.Fin mid_price)
        (Dec.of_float (F64.sub (F64.of_Z 1) (RSIAMM.shift s natr)))
  | Spec.NEUTRAL => Py.Return (Dec.Fin mid_price)
  end.
Proof.
  unfold RSIAMM.reference, Spec.of_int.
  destruct (RSIAMM.rsi_signal s =? 1)%Z; [reflexivity|].
  destruct (RSIAMM.rsi_signal s =? -1)%Z; reflexivity.
Qed.

Lemma RsiAmmV2_reference_by_signal (s : RsiAmmV2.t) (mid_price : Q) (natr : F64.t) :
  RsiAmmV2.reference s mid_price natr =
  match Spec.of_cached (RsiAmmV2.rsi_signal s) with
  | Spec.BUY =>
      Dec.mul (Dec.Fin mid_price)
        (Dec.of_float (F64.add (F64.of_Z 1) (RsiAmmV2.shift s natr)))
  | Spec.SELL =>
      Dec.mul (Dec.Fin mid_price)
        (Dec.of_float (F64.sub (F64.of_Z 1) (RsiAmmV2.shift s natr)))
  | Spec.NEUTRAL => Py.Return (Dec.Fin mid_price)
  end.
Proof.
  unfold RsiAmmV2.reference, RsiAmmV2.signal_is, Spec.of_cached, Spec.of_int.
  destruct (RsiAmmV2.rsi_signal s) as [z|]; [|reflexivity].
  destruct (z =? 1)%Z; [reflexivity|].
  destruct (z =? -1)%Z; reflexivity.
Qed.

(** With a finite reference price and finite factors, the two prices are
    the rounded products. *)
Lemma RSIAMM_quotes_finite (s : RSIAMM.t) (mid_price reference : Q) (natr : F64.t) :
  RSIAMM.reference s mid_price natr = Py.Return (Dec.Fin reference) ->
  F64.finite (RSIAMM.bid_factor s natr) = true ->
  F64.finite (RSIAMM.ask_factor s natr) = true ->
  RSIAMM.quotes s mid_price natr =
  Py.Return (Dec.Fin (Dec.round (reference * F64.value (RSIAMM.bid_factor s natr))),
             Dec.Fin (Dec.round (reference * F64.value (RSIAMM.ask_factor s natr)))).
Proof.
  intros Href Hbid Hask. unfold RSIAMM.quotes.
  rewrite Href, (of_float_finite _ Hbid), (of_float_finite _ Hask). reflexivity.
Qed.

Lemma RsiAmmV2_quotes_finite (s : RsiAmmV2.t) (mid_price reference : Q) (natr : F64.t) :
  RsiAmmV2.reference s mid_price natr = Py.Return (Dec.Fin reference) ->
  F64.finite (RsiAmmV2.bid_factor s natr) = true ->
  F64.finite (RsiAmmV2.ask_factor s natr) = true ->
  RsiAmmV2.quotes s mid_price natr =
  Py.Return (Dec.Fin (Dec.round (reference * F64.value (RsiAmmV2.bid_factor s natr))),
             Dec.Fin (Dec.round (reference * F64.value (RsiAmmV2.ask_factor s natr)))).
Proof.
  intros Href Hbid Hask. unfold RsiAmmV2.quotes.
  rewrite Href, (of_float_finite _ Hbid), (of_float_finite _ Hask). reflexivity.
Qed.

(** C1, as stated, fails on its own example: with mid price 100, a NEUTRAL
    signal, both spreads 1 and volatility 0.01 (the float [1.0 / 100] that
    the volatility read returns), the first variant prices its orders at
    98.99999999999999911182158030 and 101.0000000000000008881784197, not at
    99 and 101, because [Decimal] is given the floats [1 - 0.01] and
    [1 + 0.01]; and the second variant returns no price at all. *)
Lemma C1_counterexample :
  let h := Sample.host 1000 100 (Sample.table 101) 50 1 in
  let r1 := mkRun (RSIAMM.set_rsi_signal (Spec.code Spec.NEUTRAL) (RSIAMM.new ∅)) [] in
  let r2 := mkRun (RsiAmmV2.set_rsi_signal (Some (Spec.code Spec.NEUTRAL))
                     (RsiAmmV2.new (RsiAmmV2Config.default ∅) ∅)) [] in
  RSIAMM.bid_spread (self r1) = 1 /\ RSIAMM.ask_spread (self r1) = 1 /\
  fst (RSIAMM.get_natr h r1) = Py.Return (F64.of_Q (1 # 100)) /\
  fst (RSIAMM.create_proposal h 100 r1) =
  Py.Return (RSIAMM.orders (self r1)
               (Dec.Fin 98.99999999999999911182158030)
               (Dec.Fin 101.0000000000000008881784197)) /\
  ~ 98.99999999999999911182158030 == 99 /\
  ~ 101.0000000000000008881784197 == 101 /\
  fst (RsiAmmV2.create_proposal h 100 r2) = Py.Raise (Py.AttributeError "natr_period").
Proof.
  cbv zeta. repeat split; try (vm_compute; reflexivity); vm_compute; discriminate.
Qed.

(** C1, amended.  In the first variant, with the value [natr] that the
    volatility read returns, [create_proposal] prices its two orders as
    follows.  The reference price is the mid price times
    [Decimal(1 + bid_spread * natr * skew_pct)] on a BUY signal, times
    [Decimal(1 - bid_spread * natr * skew_pct)] on a SELL signal, and the mid
    price otherwise; the buy price is the reference price times
    [Decimal(1 - bid_spread * natr)] and the sell price is the reference price
    times [Decimal(1 + ask_spread * natr)].  Each factor is computed in
    binary64 and converted exactly, and each product is rounded to 28
    significant digits: these are the formulas of the claim up to those
    roundings.  The price lines of the second variant compute the same, but
    its [create_proposal] raises at the volatility read while the
    configuration defines no [natr_period]. *)
Theorem C1_quote_prices
  (h : Host.t) (mid_price : Q) (natr : F64.t) (r1 : run RSIAMM.t) (r2 : run RsiAmmV2.t)
  (Hnatr : fst (RSIAMM.get_natr h r1) = Py.Return natr)
  (Hbase : RsiAmmV2Config.base_fields (RsiAmmV2.config (self r2)) !! "natr_period"
           = None) :
  let s1 := self r1 in
  let s2 := self r2 in
  let c := RsiAmmV2.config s2 in
  let one := F64.of_Z 1 in
  let shift1 :=
    F64.mul (F64.mul (F64.of_Q (RSIAMM.bid_spread s1)) natr)
            (F64.of_Q (RSIAMM.rsi_spread_change_percentage s1)) in
  let bid1 := F64.sub one (F64.mul (F64.of_Q (RSIAMM.bid_spread s1)) natr) in
  let ask1 := F64.add one (F64.mul (F64.of_Q (RSIAMM.ask_spread s1)) natr) in
  let shift2 :=
    F64.mul (F64.mul (F64.of_Q (RsiAmmV2Config.bid_spread c)) natr)
            (F64.of_Q (RsiAmmV2Config.rsi_spread_change_percentage c)) in
  let bid2 := F64.sub one (F64.mul (F64.of_Q (RsiAmmV2Config.bid_spread c)) natr) in
  let ask2 := F64.add one (F64.mul (F64.of_Q (RsiAmmV2Config.ask_spread c)) natr) in
  fst (RSIAMM.create_proposal h mid_price r1) =
  match RSIAMM.quotes s1 mid_price natr with
  | Py.Return prices => Py.Return (RSIAMM.orders s1 (fst prices) (snd prices))
  | Py.Raise e => Py.Raise e
  end /\
  RSIAMM.reference s1 mid_price natr =
  match Spec.of_int (RSIAMM.rsi_signal s1) with
  | Spec.BUY => Dec.mul (Dec.Fin mid_price) (Dec.of_float (F64.add one shift1))
  | Spec.SELL => Dec.mul (Dec.Fin mid_price) (Dec.of_float (F64.sub one shift1))
  | Spec.NEUTRAL => Py.Return (Dec.Fin mid_price)
  end /\
  (forall reference : Q,
      RSIAMM.reference s1 mid_price natr = Py.Return (Dec.Fin reference) ->
      F64.finite bid1 = true -> F64.finite ask1 = true ->
      RSIAMM.quotes s1 mid_price natr =
      Py.Return (Dec.Fin (Dec.round (reference * F64.value bid1)),
                 Dec.Fin (Dec.round (reference * F64.value ask1)))) /\
  RsiAmmV2.reference s2 mid_price natr =
  match Spec.of_cached (RsiAmmV2.rsi_signal s2) with
  | Spec.BUY => Dec.mul (Dec.Fin mid_price) (Dec.of_float (F64.add one shift2))
  | Spec.SELL => Dec.mul (Dec.Fin mid_price) (Dec.of_float (F64.sub one shift2))
  | Spec.NEUTRAL => Py.Return (Dec.Fin mid_price)
  end /\
  (forall reference : Q,
      RsiAmmV2.reference s2 mid_price natr = Py.Return (Dec.Fin reference) ->
      F64.finite bid2 = true -> F64.finite ask2 = true ->
      RsiAmmV2.quotes s2 mid_price natr =
      Py.Return (Dec.Fin (Dec.round (reference * F64.value bid2)),
                 Dec.Fin (Dec.round (reference * F64.value ask2)))) /\
  RsiAmmV2.create_proposal h mid_price r2
  = (Py.Raise (Py.AttributeError "natr_period"), r2).
Proof.
  intros s1 s2 c one shift1 bid1 ask1 shift2 bid2 ask2.
  split; [|split; [|split; [|split; [|split]]]].
  - subst s1. rewrite (RSIAMM_create_proposal_from_natr h mid_price natr r1 Hnatr).
    reflexivity.
  - apply RSIAMM_reference_by_signal.
  - intros reference Href Hbid Hask. apply RSIAMM_quotes_finite; assumption.
  - apply RsiAmmV2_reference_by_signal.
  - intros reference Href Hbid Hask. apply RsiAmmV2_quotes_finite; assumption.
  - apply RsiAmmV2_create_proposal_undefined. exact Hbase.
Qed.

Lemma C1_witness :
  let h := Sample.host 1000 100 (Sample.table 101) 50 1 in
  let r1 := mkRun (RSIAMM.set_rsi_signal 1 (RSIAMM.new ∅)) [] in
  let r2 := mkRun (RsiAmmV2.set_rsi_signal (Some (-1)%Z)
                     (RsiAmmV2.new (RsiAmmV2Config.default ∅) ∅)) [] in
  let natr := F64.of_Q (1 # 100) in
  let one := F64.of_Z 1 in
  fst (RSIAMM.create_proposal h 100 r1) =
  Py.Return (RSIAMM.orders (self r1)
               (Dec.Fin 99.49499999999998855582106217)
               (Dec.Fin 101.5049999999999901278968650)) /\
  RSIAMM.quotes (self r1) 100 natr =
  Py.Return
    (Dec.Fin (Dec.round (100.4999999999999893418589636
                         * F64.value (F64.sub one (F64.mul (F64.of_Q 1) natr)))),
     Dec.Fin (Dec.round (100.4999999999999893418589636
                         * F64.value (F64.add one (F64.mul (F64.of_Q 1) natr))))) /\
  RsiAmmV2.quotes (self r2) 100 natr =
  Py.Return
    (Dec.Fin (Dec.round (99.49999999999999955591079015
                         * F64.value (F64.sub one (F64.mul (F64.of_Q 1) natr)))),
     Dec.Fin (Dec.round (99.49999999999999955591079015
                         * F64.value (F64.add one (F64.mul (F64.of_Q 1) natr))))) /\
  RsiAmmV2.create_proposal h 100 r2 = (Py.Raise (Py.AttributeError "natr_period"), r2).
Proof.
  intros h r1 r2 natr one.
  assert (fst (RSIAMM.get_natr h r1) = Py.Return natr) as Hnatr by (vm_compute; reflexivity).
  assert (RsiAmmV2Config.base_fields (RsiAmmV2.config (self r2)) !! "natr_period" = None)
    as Hbase by reflexivity.
  destruct (C1_quote_prices h 100 natr r1 r2 Hnatr Hbase) as (H1 & _ & H3 & _ & H5 & H6).
  split; [rewrite H1; vm_compute; reflexivity|].
  split; [apply H3; vm_compute; reflexivity|].
  split; [apply H5; vm_compute; reflexivity | exact H6].
Defined.




(** The price lines of the two variants are the same function of the
    cached signal, the spreads, the skew percentage, the mid price and the
    volatility. *)
Lemma quotes_agree (s1 : RSIAMM.t) (s2 : RsiAmmV2.t) (mid_price : Q) (natr : F64.t) :
  RsiAmmV2Config.bid_spread (RsiAmmV2.config s2) = RSIAMM.bid_spread s1 ->
  RsiAmmV2Config.ask_spread (RsiAmmV2.config s2) = RSIAMM.ask_spread s1 ->
  RsiAmmV2Config.rsi_spread_change_percentage (RsiAmmV2.config s2)
  = RSIAMM.rsi_spread_change_percentage s1 ->
  RsiAmmV2.rsi_signal s2 = Some (RSIAMM.rsi_signal s1) ->
  RsiAmmV2.quotes s2 mid_price natr = RSIAMM.quotes s1 mid_price natr.
Proof.
  intros Hbid Hask Hskew Hsignal.
  unfold RsiAmmV2.quotes, RSIAMM.quotes, RsiAmmV2.reference, RSIAMM.reference,
    RsiAmmV2.bid_factor, RSIAMM.bid_factor, RsiAmmV2.ask_factor, RSIAMM.ask_factor,
    RsiAmmV2.shift, RSIAMM.shift, RsiAmmV2.signal_is.
  rewrite Hbid, Hask, Hskew, Hsignal. reflexivity.
Qed.

(** C10.  With the parameter values the variants share and the same cached
    signal, the price lines of the two variants compute the same buy and sell
    price from the same mid price and volatility; but only the first
    variant's [create_proposal] returns them.  The second variant's raises
    [AttributeError] at its volatility read, which names a [natr_period] that
    its configuration does not define, so it returns no price to compare. *)
Theorem C10_second_variant_returns_no_prices
  (h : Host.t) (mid_price : Q) (natr : F64.t) (r1 : run RSIAMM.t) (r2 : run RsiAmmV2.t)
  (Hbid1 : RSIAMM.bid_spread (self r1) = 1)
  (Hask1 : RSIAMM.ask_spread (self r1) = 1)
  (Hskew1 : RSIAMM.rsi_spread_change_percentage (self r1) = 1 # 2)
  (Hbid2 : RsiAmmV2Config.bid_spread (RsiAmmV2.config (self r2)) = 1)
  (Hask2 : RsiAmmV2Config.ask_spread (RsiAmmV2.config (self r2)) = 1)
  (Hskew2 : RsiAmmV2Config.rsi_spread_change_percentage (RsiAmmV2.config (self r2))
            = 1 # 2)
  (Hsignal : RsiAmmV2.rsi_signal (self r2) = Some (RSIAMM.rsi_signal (self r1)))
  (Hnatr : fst (RSIAMM.get_natr h r1) = Py.Return natr)
  (Hbase : RsiAmmV2Config.base_fields (RsiAmmV2.config (self r2)) !! "natr_period"
           = None) :
  RsiAmmV2.quotes (self r2) mid_price natr = RSIAMM.quotes (self r1) mid_price natr /\
  fst (RSIAMM.create_proposal h mid_price r1) =
  match RSIAMM.quotes (self r1) mid_price natr with
  | Py.Return prices => Py.Return (RSIAMM.orders (self r1) (fst prices) (snd prices))
  | Py.Raise e => Py.Raise e
  end /\
  RsiAmmV2.create_proposal h mid_price r2
  = (Py.Raise (Py.AttributeError "natr_period"), r2) /\
  (forall proposal : list Host.OrderCandidate,
      fst (RsiAmmV2.create_proposal h mid_price r2) <> Py.Return proposal).
Proof.
  pose proof (RsiAmmV2_create_proposal_undefined h mid_price r2 Hbase) as Hraise.
  split; [|split; [|split]].
  - apply quotes_agree; congruence.
  - rewrite (RSIAMM_create_proposal_from_natr h mid_price natr r1 Hnatr). reflexivity.
  - exact Hraise.
  - intros proposal. rewrite Hraise. discriminate.
Qed.

Lemma C10_witness :
  let h := Sample.host 1000 100 (Sample.table 101) 50 1 in
  let r1 := mkRun (RSIAMM.new ∅) [] in
  let r2 := mkRun (RsiAmmV2.new (RsiAmmV2Config.default ∅) ∅) [] in
  fst (RSIAMM.create_proposal h 100 r1) =
  Py.Return (RSIAMM.orders (self r1)
               (Dec.Fin 98.99999999999999911182158030)
               (Dec.Fin 101.0000000000000008881784197)) /\
  RsiAmmV2.create_proposal h 100 r2 = (Py.Raise (Py.AttributeError "natr_period"), r2).
Proof.
  intros h r1 r2.
  assert (fst (RSIAMM.get_natr h r1) = Py.Return (F64.of_Q (1 # 100))) as Hnatr
    by (vm_compute; reflexivity).
  destruct (C10_second_variant_returns_no_prices h 100 (F64.of_Q (1 # 100)) r1 r2
              eq_refl eq_refl eq_refl eq_refl eq_refl eq_refl eq_refl Hnatr eq_refl)
    as (_ & H1 & H2 & _).
  split; [|exact H2].
  rewrite H1. vm_compute. reflexivity.
Defined.

(** ** The claims about signals, ticks and orders *)

(** C3, as stated, fails.  In the second variant, with [rsi_low = 80] and
    [rsi_high = 20], a latest oscillator value of 50 over 15 candles is
    strictly below the low threshold, and [get_signal] returns SELL (-1), not
    BUY.  And a window can be non-empty and too short for the indicator
    library: over one candle the second variant raises [KeyError], and the
    first variant decides on the last column of the candle table itself, the
    taker buy quote volume (here 5000, so SELL). *)
Lemma C3_counterexample :
  let c := RsiAmmV2Config.new "binance" "BTC-USDT" 14 80 20 "3m" 30 ∅ in
  let h := Sample.host 1000 100 (Sample.table 15) 50 1 in
  let r := mkRun (RsiAmmV2.new c ∅) [] in
  let df := Host.get_candles_df h "binance" "BTC-USDT" "3m" 24 in
  let h1 := Sample.host 1000 100 [Sample.candle 100] 25 1 in
  df <> [] /\
  F64.lt (Spec.latest (Host.ta_rsi h 14) df) (RsiAmmV2Config.rsi_low c) = true /\
  fst (RsiAmmV2.get_signal h "binance" "BTC-USDT" r) = Py.Return (Some (-1)%Z) /\
  fst (RsiAmmV2.get_signal h "binance" "BTC-USDT" r)
    <> Py.Return (Some (Spec.code Spec.BUY)) /\
  Host.feed_candles_df h1 <> [] /\
  fst (RsiAmmV2.get_signal h1 "binance" "BTC-USDT"
         (mkRun (RsiAmmV2.new (RsiAmmV2Config.default ∅) ∅) []))
  = Py.Raise (Py.KeyError "RSI_14") /\
  Runs.rsi_value h1 = Host.taker_buy_quote_volume (Sample.candle 100) /\
  fst (RSIAMM.get_rsi_signal h1 (mkRun (RSIAMM.new ∅) [])) = Py.Return (-1)%Z.
Proof.
  cbv zeta.
  split; [discriminate|]. split; [vm_compute; reflexivity|].
  split; [vm_compute; reflexivity|]. split; [vm_compute; discriminate|].
  split; [discriminate|]. split; [vm_compute; reflexivity|].
  split; vm_compute; reflexivity.
Qed.

(** C3, amended.  For every candle window with more rows than the RSI
    period (7 in the first variant, the positive [rsi_period] in the second),
    so that the indicator library computes the oscillator, and thresholds
    with low <= high, the signal computation returns BUY (+1) when the latest
    oscillator value is strictly below the low threshold, SELL (-1) when it is
    strictly above the high threshold, and NEUTRAL (0) otherwise, also for a
    latest value that is NaN.  The thresholds of the first variant are the
    constants 30 and 70; those of the second are the configured [rsi_low] and
    [rsi_high]. *)
Theorem C3_signal_from_thresholds
  (h : Host.t) (r1 : run RSIAMM.t) (r2 : run RsiAmmV2.t)
  (connector_name trading_pair : string)
  (Hfeed : (7 < Z.of_nat (length (Host.feed_candles_df h)))%Z)
  (Hperiod : (0 < RsiAmmV2Config.rsi_period (RsiAmmV2.config (self r2)))%Z)
  (Hdf : (RsiAmmV2Config.rsi_period (RsiAmmV2.config (self r2))
          < Z.of_nat (length (Host.get_candles_df h connector_name trading_pair
                                (RsiAmmV2Config.interval (RsiAmmV2.config (self r2)))
                                (RsiAmmV2.max_records (self r2)))))%Z)
  (Hthresholds : RsiAmmV2Config.rsi_low (RsiAmmV2.config (self r2))
                 <= RsiAmmV2Config.rsi_high (RsiAmmV2.config (self r2))) :
  let c := RsiAmmV2.config (self r2) in
  let df := Host.get_candles_df h connector_name trading_pair
              (RsiAmmV2Config.interval c) (RsiAmmV2.max_records (self r2)) in
  fst (RSIAMM.get_rsi_signal h r1) =
  Py.Return
    (Spec.code
       (Spec.compute_signal
          (Spec.latest (Host.ta_rsi h 7) (Host.feed_candles_df h)) 30 70)) /\
  fst (RsiAmmV2.get_signal h connector_name trading_pair r2) =
  Py.Return
    (Some (Spec.code
             (Spec.compute_signal
                (Spec.latest (Host.ta_rsi h (RsiAmmV2Config.rsi_period c)) df)
                (RsiAmmV2Config.rsi_low c) (RsiAmmV2Config.rsi_high c)))) /\
  Spec.compute_signal S754_nan (RsiAmmV2Config.rsi_low c) (RsiAmmV2Config.rsi_high c)
  = Spec.NEUTRAL.
Proof.
  intros c df. apply ta_computes_iff in Hfeed.
  assert (RsiAmmV2.has_rsi_column c df = true) as Hcol
    by (apply has_rsi_column_iff; split; assumption).
  split; [|split].
  - rewrite RSIAMM_get_rsi_signal_run
      by (apply (ta_computes_nonempty 7); [lia | exact Hfeed]).
    cbv zeta. cbn [fst]. rewrite (rsi_value_computed h Hfeed).
    rewrite (proj1 (compute_signal_code _ 30 70 ltac:(lra))). reflexivity.
  - rewrite (RsiAmmV2_get_signal_value h connector_name trading_pair r2 Hcol).
    cbv zeta. cbn [fst].
    rewrite (proj2 (compute_signal_code _ _ _ Hthresholds)). reflexivity.
  - reflexivity.
Qed.

Lemma C3_witness :
  let h := Sample.host 1000 100 (Sample.table 15) 25 1 in
  let r1 := mkRun (RSIAMM.new ∅) [] in
  let r2 := mkRun (RsiAmmV2.new (RsiAmmV2Config.default ∅) ∅) [] in
  fst (RSIAMM.get_rsi_signal h r1) = Py.Return (Spec.code Spec.BUY) /\
  fst (RsiAmmV2.get_signal h "binance" "BTC-USDT" r2)
  = Py.Return (Some (Spec.code Spec.BUY)).
Proof.
  intros h r1 r2.
  assert (7 < Z.of_nat (length (Host.feed_candles_df h)))%Z as Hfeed by reflexivity.
  assert (0 < RsiAmmV2Config.rsi_period (RsiAmmV2.config (self r2)))%Z as Hperiod
    by reflexivity.
  assert (RsiAmmV2Config.rsi_period (RsiAmmV2.config (self r2))
          < Z.of_nat (length (Host.get_candles_df h "binance" "BTC-USDT"
                                (RsiAmmV2Config.interval (RsiAmmV2.config (self r2)))
                                (RsiAmmV2.max_records (self r2)))))%Z as Hdf
    by reflexivity.
  assert (RsiAmmV2Config.rsi_low (RsiAmmV2.config (self r2))
          <= RsiAmmV2Config.rsi_high (RsiAmmV2.config (self r2))) as Hthresholds
    by (vm_compute; discriminate).
  destruct (C3_signal_from_thresholds h r1 r2 "binance" "BTC-USDT"
              Hfeed Hperiod Hdf Hthresholds) as (H1 & H2 & _).
  split; [exact H1 | exact H2].
Defined.

(** C4.  On an empty candle window neither signal computation returns a
    "no signal" value.  The first variant raises [IndexError] at
    [iat[-1, -1]], which it evaluates with no emptiness test, and a tick that
    reaches it fails with that error.  The second variant has the test
    ([... if not candles.empty else None], line 161), but line 159 runs
    first and raises [KeyError]: over an empty table the indicator library
    has appended no RSI column. *)
Theorem C4_empty_window
  (h : Host.t) (r1 : run RSIAMM.t) (r2 : run RsiAmmV2.t)
  (connector_name trading_pair : string)
  (Hfeed : Host.feed_candles_df h = [])
  (Hdf : Host.get_candles_df h connector_name trading_pair
           (RsiAmmV2Config.interval (RsiAmmV2.config (self r2)))
           (RsiAmmV2.max_records (self r2)) = [])
  (Hready : Host.ready h = true)
  (Hdeadline : RSIAMM.create_timestamp (self r1) <= Host.current_timestamp h) :
  RSIAMM.get_rsi_signal h r1 =
  (Py.Raise (Py.IndexError "index -1 is out of bounds for axis 0 with size 0"), r1) /\
  RSIAMM.on_tick h r1 =
  (Py.Raise (Py.IndexError "index -1 is out of bounds for axis 0 with size 0"), r1) /\
  RsiAmmV2.get_signal h connector_name trading_pair r2 =
  (Py.Raise (Py.KeyError (RsiAmmV2.rsi_column (RsiAmmV2.config (self r2)))), r2) /\
  fst (RsiAmmV2.get_signal h connector_name trading_pair r2) <> Py.Return None.
Proof.
  assert (RsiAmmV2.get_signal h connector_name trading_pair r2 =
          (Py.Raise (Py.KeyError (RsiAmmV2.rsi_column (RsiAmmV2.config (self r2)))), r2))
    as Hkey.
  { apply RsiAmmV2_get_signal_missing. rewrite Hdf.
    apply Bool.not_true_is_false. intros Hcol.
    apply has_rsi_column_iff in Hcol. simpl in Hcol. lia. }
  split; [|split; [|split]].
  - apply RSIAMM_get_rsi_signal_empty. assumption.
  - apply RSIAMM_on_tick_empty_feed; assumption.
  - exact Hkey.
  - rewrite Hkey. discriminate.
Qed.

Lemma C4_witness :
  let h := Sample.host 1000 100 [] 25 1 in
  let r1 := mkRun (RSIAMM.new ∅) [] in
  let r2 := mkRun (RsiAmmV2.new (RsiAmmV2Config.default ∅) ∅) [] in
  RSIAMM.get_rsi_signal h r1 =
  (Py.Raise (Py.IndexError "index -1 is out of bounds for axis 0 with size 0"), r1) /\
  RSIAMM.on_tick h r1 =
  (Py.Raise (Py.IndexError "index -1 is out of bounds for axis 0 with size 0"), r1) /\
  RsiAmmV2.get_signal h "binance" "BTC-USDT" r2 = (Py.Raise (Py.KeyError "RSI_14"), r2).
Proof.
  intros h r1 r2.
  assert (RSIAMM.create_timestamp (self r1) <= Host.current_timestamp h) as Hdeadline
    by (vm_compute; discriminate).
  destruct (C4_empty_window h r1 r2 "binance" "BTC-USDT" eq_refl eq_refl eq_refl Hdeadline)
    as (H1 & H2 & H3 & _).
  split; [exact H1|]. split; [exact H2 | exact H3].
Defined.










(** C8, as stated, fails: the first variant binds [natr_period = 100] in its
    class body, and its volatility computation reads it and returns (over 101
    candles with a latest NATR value of 1.0, the float 0.01). *)
Lemma C8_counterexample :
  let h := Sample.host 1000 100 (Sample.table 101) 25 1 in
  let r := mkRun (RSIAMM.new ∅) [] in
  Py.getattr (RSIAMM.attrs (self r)) "natr_period" = Py.Return (Py.Int 100) /\
  fst (RSIAMM.get_natr h r) = Py.Return (F64.of_Q (1 # 100)).
Proof. split; vm_compute; reflexivity. Qed.

(** C8, amended.  It is the second variant whose volatility computation
    reads a [natr_period] that its configuration object does not define: the
    class body of [RsiAmmV2Config] binds none, so unless the configuration
    base class does, [get_natr] raises [AttributeError], and with it
    [create_proposal].  The first variant reads [natr_period] from its own
    class body. *)
Theorem C8_natr_period_undefined_in_second_variant
  (h : Host.t) (mid_price : Q) (r1 : run RSIAMM.t) (r2 : run RsiAmmV2.t)
  (Hbase : RsiAmmV2Config.base_fields (RsiAmmV2.config (self r2)) !! "natr_period"
           = None) :
  Py.getattr (RsiAmmV2Config.attrs (RsiAmmV2.config (self r2))) "natr_period"
  = Py.Raise (Py.AttributeError "natr_period") /\
  RsiAmmV2.get_natr h r2 = (Py.Raise (Py.AttributeError "natr_period"), r2) /\
  RsiAmmV2.create_proposal h mid_price r2
  = (Py.Raise (Py.AttributeError "natr_period"), r2) /\
  Py.getattr (RSIAMM.attrs (self r1)) "natr_period"
  = Py.Return (Py.Int (RSIAMM.natr_period (self r1))).
Proof.
  repeat split.
  - unfold Py.getattr. rewrite RsiAmmV2Config_natr_period, Hbase. reflexivity.
  - apply RsiAmmV2_get_natr_undefined. assumption.
  - apply RsiAmmV2_create_proposal_undefined. assumption.
  - apply RSIAMM_natr_period_defined.
Qed.

Lemma C8_witness :
  let h := Sample.host 1000 100 (Sample.table 101) 25 1 in
  let r1 := mkRun (RSIAMM.new ∅) [] in
  let r2 := mkRun (RsiAmmV2.new (RsiAmmV2Config.default ∅) ∅) [] in
  Py.getattr (RsiAmmV2Config.attrs (RsiAmmV2.config (self r2))) "natr_period"
  = Py.Raise (Py.AttributeError "natr_period") /\
  RsiAmmV2.get_natr h r2 = (Py.Raise (Py.AttributeError "natr_period"), r2) /\
  RsiAmmV2.create_proposal h 100 r2
  = (Py.Raise (Py.AttributeError "natr_period"), r2) /\
  Py.getattr (RSIAMM.attrs (self r1)) "natr_period" = Py.Return (Py.Int 100).
Proof.
  apply (C8_natr_period_undefined_in_second_variant
           (Sample.host 1000 100 (Sample.table 101) 25 1) 100
           (mkRun (RSIAMM.new ∅) [])
           (mkRun (RsiAmmV2.new (RsiAmmV2Config.default ∅) ∅) [])).
  reflexivity.
Defined.



(** * Further properties of the code *)

(** ** Quote prices *)












(** ** Ticks of the first variant *)

(** X5.  A tick of the first variant that finds the mid price within the
    buffer of the remembered one cancels nothing and places nothing: on a
    ready framework it only runs the refresh branch, and before the refresh
    deadline it does nothing at all, as a tick on a framework that is not
    ready. *)
Theorem X5_tick_without_requote
  (h : Host.t) (r : run RSIAMM.t)
  (Hquote : RSIAMM.should_requote (RSIAMM.last_mid_price (self r))
              (Runs.mid_price h (self r)) (RSIAMM.buffer_size (self r)) = false)
  (Hfeed : RSIAMM.create_timestamp (self r) <= Host.current_timestamp h ->
           Host.feed_candles_df h <> []) :
  RSIAMM.on_tick h r =
  (Py.Return tt,
   if Host.ready h then
     mkRun (Runs.refreshed h (self r)) (calls r ++ Runs.refresh_logs h (self r))
   else r) /\
  (Host.current_timestamp h < RSIAMM.create_timestamp (self r) ->
   RSIAMM.on_tick h r = (Py.Return tt, r)).
Proof.
  split.
  - destruct (Host.ready h) eqn:Hready.
    + rewrite (RSIAMM_on_tick_halves h r Hready Hfeed).
      apply requote_idle. cbn [self].
      destruct (refreshed_last_mid_price h (self r)) as [-> Hpar].
      unfold Runs.parameters in Hpar.
      assert (RSIAMM.buffer_size (Runs.refreshed h (self r)) = RSIAMM.buffer_size (self r))
        as -> by congruence.
      exact Hquote.
    + apply RSIAMM_on_tick_not_ready. assumption.
  - intros Hbefore. apply (RSIAMM_on_tick_idle h r Hbefore Hquote).
Qed.

Lemma X5_witness :
  let h := Sample.host 1000 150 (Sample.table 8) 80 1 in
  let r := mkRun (RSIAMM.set_last_mid_price (Some 100) (RSIAMM.new ∅)) [] in
  RSIAMM.on_tick h r =
  (Py.Return tt,
   mkRun (RSIAMM.set_last_mid_price (Some 100)
            (RSIAMM.set_create_timestamp 1015 (RSIAMM.set_rsi_signal (-1) (RSIAMM.new ∅))))
         [ Host.log "RSI signal is" (Some 80);
           Host.log "RSI signal is over 70 - adjusting mid price" None ]).
Proof.
  intros h r.
  assert (RSIAMM.should_requote (RSIAMM.last_mid_price (self r))
            (Runs.mid_price h (self r)) (RSIAMM.buffer_size (self r)) = false) as Hquote
    by reflexivity.
  assert (RSIAMM.create_timestamp (self r) <= Host.current_timestamp h ->
          Host.feed_candles_df h <> []) as Hfeed by (intros _; vm_compute; discriminate).
  exact (proj1 (X5_tick_without_requote h r Hquote Hfeed)).
Defined.
(** X6.  A tick of the first variant that re-quotes, reads the volatility
    over more candles than the NATR window and computes its two prices: it
    runs the refresh branch first, so from the deadline on the two orders are
    priced with the signal just recomputed, and before it with the cached
    one; then it logs the mid price, cancels the active orders, places what
    the budget checker returns and remembers the mid price. *)
Theorem X6_tick_with_requote
  (h : Host.t) (buy_price sell_price : Dec.t) (r : run RSIAMM.t)
  (Hready : Host.ready h = true)
  (Hfeed : RSIAMM.create_timestamp (self r) <= Host.current_timestamp h ->
           Host.feed_candles_df h <> [])
  (Hquote : RSIAMM.should_requote (RSIAMM.last_mid_price (self r))
              (Runs.mid_price h (self r)) (RSIAMM.buffer_size (self r)) = true)
  (Hrows : (Runs.natr_length (self r)
            < Z.of_nat (length (Runs.natr_df h (self r))))%Z)
  (Hprices : RSIAMM.quotes (Runs.refreshed h (self r)) (Runs.mid_price h (self r))
               (Runs.natr h (self r)) = Py.Return (buy_price, sell_price)) :
  let s := self r in
  let s' := Runs.refreshed h s in
  let mid := Runs.mid_price h s in
  RSIAMM.on_tick h r =
  (Py.Return tt,
   mkRun (RSIAMM.set_last_mid_price (Some mid) s')
     (calls r ++ Runs.requote_calls h s
        ++ Spec.placed (RSIAMM.exchange s)
             (Host.adjust_candidates h (RSIAMM.orders s' buy_price sell_price) true))) /\
  (RSIAMM.create_timestamp s <= Host.current_timestamp h ->
   RSIAMM.rsi_signal s' = Runs.rsi_signal_of (Runs.rsi_value h)) /\
  (Host.current_timestamp h < RSIAMM.create_timestamp s ->
   RSIAMM.rsi_signal s' = RSIAMM.rsi_signal s).
Proof.
  intros s s' mid. subst s s' mid. apply ta_computes_iff in Hrows. split; [|split].
  - apply RSIAMM_on_tick_quotes; assumption.
  - intros Hle. apply Py_le_iff in Hle. unfold Runs.refreshed.
    rewrite Hle. reflexivity.
  - intros Hlt. apply Py_le_false_iff in Hlt. unfold Runs.refreshed.
    rewrite Hlt. reflexivity.
Qed.

Lemma X6_witness :
  let h := Sample.host 1000 100 (Sample.table 101) 80 1 in
  let r := mkRun (RSIAMM.set_rsi_signal 1 (RSIAMM.new ∅)) [] in
  let s' := RSIAMM.set_create_timestamp 1015 (RSIAMM.set_rsi_signal (-1) (RSIAMM.new ∅)) in
  let buy_price := Dec.Fin 98.50499999999999867661415465 in
  let sell_price := Dec.Fin 100.4950000000000004352074257 in
  RSIAMM.quotes s' 100 (F64.of_Q (1 # 100)) = Py.Return (buy_price, sell_price) /\
  RSIAMM.on_tick h r =
  (Py.Return tt,
   mkRun (RSIAMM.set_last_mid_price (Some 100) s')
     [ Host.log "RSI signal is" (Some 80);
       Host.log "RSI signal is over 70 - adjusting mid price" None;
       Host.log "Mid price is" (Some 100);
       Host.buy "binance" "BTC-USDT" (RSIAMM.order_amount s') Host.LIMIT buy_price;
       Host.sell "binance" "BTC-USDT" (RSIAMM.order_amount s') Host.LIMIT sell_price ]).
Proof.
  intros h r s' buy_price sell_price.
  assert (Host.ready h = true) as Hready by reflexivity.
  assert (RSIAMM.create_timestamp (self r) <= Host.current_timestamp h ->
          Host.feed_candles_df h <> []) as Hfeed by (intros _; vm_compute; discriminate).
  assert (RSIAMM.should_requote (RSIAMM.last_mid_price (self r))
            (Runs.mid_price h (self r)) (RSIAMM.buffer_size (self r)) = true) as Hquote
    by reflexivity.
  assert (Runs.natr_length (self r) < Z.of_nat (length (Runs.natr_df h (self r))))%Z
    as Hrows by reflexivity.
  assert (RSIAMM.quotes (Runs.refreshed h (self r)) (Runs.mid_price h (self r))
            (Runs.natr h (self r)) = Py.Return (buy_price, sell_price)) as Hprices
    by (vm_compute; reflexivity).
  split; [vm_compute; reflexivity|].
  rewrite (proj1 (X6_tick_with_requote h buy_price sell_price r Hready Hfeed Hquote
                    Hrows Hprices)).
  vm_compute. reflexivity.
Defined.

(** X7.  After a tick of the first variant that re-quoted, whatever the
    budget checker returned, a tick that comes before the refresh deadline
    with a mid price within the buffer of the one just quoted does nothing:
    no order is cancelled or placed again. *)
Theorem X7_requote_then_idle
  (h1 h2 : Host.t) (buy_price sell_price : Dec.t) (r : run RSIAMM.t)
  (Hready : Host.ready h1 = true)
  (Hfeed : RSIAMM.create_timestamp (self r) <= Host.current_timestamp h1 ->
           Host.feed_candles_df h1 <> [])
  (Hquote : RSIAMM.should_requote (RSIAMM.last_mid_price (self r))
              (Runs.mid_price h1 (self r)) (RSIAMM.buffer_size (self r)) = true)
  (Hrows : (Runs.natr_length (self r)
            < Z.of_nat (length (Runs.natr_df h1 (self r))))%Z)
  (Hprices : RSIAMM.quotes (Runs.refreshed h1 (self r)) (Runs.mid_price h1 (self r))
               (Runs.natr h1 (self r)) = Py.Return (buy_price, sell_price))
  (Hbefore : Host.current_timestamp h2
             < RSIAMM.create_timestamp (Runs.refreshed h1 (self r)))
  (Hwithin : Qabs (Runs.mid_price h2 (self r) - Runs.mid_price h1 (self r))
             <= RSIAMM.buffer_size (self r)) :
  let r' := snd (RSIAMM.on_tick h1 r) in
  fst (RSIAMM.on_tick h1 r) = Py.Return tt /\
  RSIAMM.last_mid_price (self r') = Some (Runs.mid_price h1 (self r)) /\
  RSIAMM.on_tick h2 r' = (Py.Return tt, r').
Proof.
  intros r'. subst r'. apply ta_computes_iff in Hrows.
  rewrite (RSIAMM_on_tick_quotes h1 buy_price sell_price r Hready Hfeed Hquote Hrows
             Hprices).
  cbn [fst snd self]. split; [reflexivity|]. split; [reflexivity|].
  destruct (refreshed_last_mid_price h1 (self r)) as [Hlast Hpar].
  unfold Runs.parameters in Hpar. injection Hpar as Hbid Hask Hrefresh Hamount Hpair
    Hexchange Hinterval Hperiod Hbuffer Hskew Hsource Hrecords.
  apply RSIAMM_on_tick_idle.
  - cbn [self]. exact Hbefore.
  - cbn [self]. cbn [RSIAMM.set_last_mid_price RSIAMM.last_mid_price RSIAMM.buffer_size
                     RSIAMM.exchange RSIAMM.trading_pair RSIAMM.price_source
                     RSIAMM.should_requote].
    rewrite Hbuffer, Hexchange, Hpair, Hsource.
    apply Py_lt_false_iff. exact Hwithin.
Qed.

Lemma X7_witness :
  let h1 := Sample.host 1000 100 (Sample.table 101) 80 1 in
  let h2 := Sample.host 1001 150 (Sample.table 101) 80 1 in
  let r' := snd (RSIAMM.on_tick h1 (mkRun (RSIAMM.new ∅) [])) in
  fst (RSIAMM.on_tick h1 (mkRun (RSIAMM.new ∅) [])) = Py.Return tt /\
  RSIAMM.last_mid_price (self r') = Some 100 /\
  RSIAMM.on_tick h2 r' = (Py.Return tt, r').
Proof.
  apply (X7_requote_then_idle
           (Sample.host 1000 100 (Sample.table 101) 80 1)
           (Sample.host 1001 150 (Sample.table 101) 80 1)
           (Dec.Fin 98.50499999999999867661415465)
           (Dec.Fin 100.4950000000000004352074257)
           (mkRun (RSIAMM.new ∅) [])).
  - reflexivity.
  - intros _. vm_compute. discriminate.
  - reflexivity.
  - reflexivity.
  - vm_compute. reflexivity.
  - reflexivity.
  - vm_compute. discriminate.
Defined.

(** X8.  A tick of the first variant that re-quotes while the candle table
    of the volatility has at most as many rows as the NATR window (the empty
    table included) fails with [AttributeError] at [natr.iloc], after it has
    cancelled the active orders: no order is placed, and the remembered mid
    price stays as it was. *)
Theorem X8_requote_without_volatility
  (h : Host.t) (r : run RSIAMM.t)
  (Hready : Host.ready h = true)
  (Hfeed : RSIAMM.create_timestamp (self r) <= Host.current_timestamp h ->
           Host.feed_candles_df h <> [])
  (Hquote : RSIAMM.should_requote (RSIAMM.last_mid_price (self r))
              (Runs.mid_price h (self r)) (RSIAMM.buffer_size (self r)) = true)
  (Hrows : (Z.of_nat (length (Runs.natr_df h (self r)))
            <= Runs.natr_length (self r))%Z) :
  RSIAMM.on_tick h r =
  (Py.Raise (Py.AttributeError "iloc"),
   mkRun (Runs.refreshed h (self r)) (calls r ++ Runs.requote_calls h (self r))) /\
  RSIAMM.last_mid_price (self (snd (RSIAMM.on_tick h r)))
  = RSIAMM.last_mid_price (self r).
Proof.
  assert (Host.ta_computes (Runs.natr_length (self r)) (Runs.natr_df h (self r)) = false)
    as Hdf.
  { apply Bool.not_true_is_false. intros Hc. apply ta_computes_iff in Hc. lia. }
  assert (RSIAMM.on_tick h r =
          (Py.Raise (Py.AttributeError "iloc"),
           mkRun (Runs.refreshed h (self r)) (calls r ++ Runs.requote_calls h (self r))))
    as Htick.
  { rewrite (RSIAMM_on_tick_halves h r Hready Hfeed).
    destruct (refreshed_last_mid_price h (self r)) as [Hlast Hpar].
    unfold Runs.parameters in Hpar. injection Hpar as Hbid Hask Hrefresh Hamount Hpair
      Hexchange Hinterval Hperiod Hbuffer Hskew Hsource Hrecords.
    rewrite requote_fails.
    - cbn [self calls]. unfold Runs.requote_calls.
      rewrite Hexchange. rewrite <- !app_assoc. reflexivity.
    - cbn [self]. rewrite Hlast, Hbuffer. exact Hquote.
    - cbn [self]. unfold Runs.natr_df, Runs.natr_length in *.
      rewrite Hexchange, Hpair, Hinterval, Hrecords, Hperiod. exact Hdf. }
  split; [exact Htick|].
  rewrite Htick. cbn [snd self]. apply refreshed_last_mid_price.
Qed.

Lemma X8_witness :
  let h := Host.mk true 1000 (fun _ _ _ => 100) (Sample.table 8)
             (fun _ _ _ _ => Sample.table 100)
             (fun _ _ _ => F64.of_Z 50) (fun _ _ _ => F64.of_Z 1)
             (fun proposal _ => proposal)
             (fun _ => [Host.mkActiveOrder "BTC-USDT" "order-1"]) in
  let r := mkRun (RSIAMM.new ∅) [] in
  RSIAMM.on_tick h r =
  (Py.Raise (Py.AttributeError "iloc"),
   mkRun (RSIAMM.set_create_timestamp 1015 (RSIAMM.set_rsi_signal 0 (RSIAMM.new ∅)))
     [ Host.log "RSI signal is" (Some 50);
       Host.log "Mid price is" (Some 100);
       Host.cancel "binance" "BTC-USDT" "order-1" ]).
Proof.
  intros h r.
  assert (Host.ready h = true) as Hready by reflexivity.
  assert (RSIAMM.create_timestamp (self r) <= Host.current_timestamp h ->
          Host.feed_candles_df h <> []) as Hfeed by (intros _; vm_compute; discriminate).
  assert (RSIAMM.should_requote (RSIAMM.last_mid_price (self r))
            (Runs.mid_price h (self r)) (RSIAMM.buffer_size (self r)) = true) as Hquote
    by reflexivity.
  assert (Z.of_nat (length (Runs.natr_df h (self r))) <= Runs.natr_length (self r))%Z
    as Hrows by (vm_compute; discriminate).
  rewrite (proj1 (X8_requote_without_volatility h r Hready Hfeed Hquote Hrows)).
  vm_compute. reflexivity.
Defined.

(** ** Invariants of the first variant *)

(** What a tick does to the refresh timer: nothing, or, at a deadline that
    has passed and on a non-empty candle feed, the recomputation. *)
Lemma RSIAMM_on_tick_timer_cases (h : Host.t) (r : run RSIAMM.t) :
  RSIAMM.timer (self (snd (RSIAMM.on_tick h r))) = RSIAMM.timer (self r) \/
  (RSIAMM.create_timestamp (self r) <= Host.current_timestamp h /\
   RSIAMM.timer (self (snd (RSIAMM.on_tick h r))) =
   (Runs.rsi_signal_of (Runs.rsi_value h),
    RSIAMM.rsi_refresh_time (self r) + Host.current_timestamp h)).
Proof.
  destruct (Host.ready h) eqn:Hready.
  - destruct (Qlt_le_dec (Host.current_timestamp h) (RSIAMM.create_timestamp (self r)))
      as [Hbefore|Hpassed].
    + left. apply RSIAMM_on_tick_before_deadline. assumption.
    + destruct (Host.feed_candles_df h) as [|k df] eqn:Hfeed.
      * left. rewrite RSIAMM_on_tick_empty_feed by assumption. reflexivity.
      * right. split; [assumption|].
        apply RSIAMM_on_tick_refresh; try assumption.
        rewrite Hfeed. discriminate.
  - left. rewrite RSIAMM_on_tick_not_ready by assumption. reflexivity.
Qed.

Lemma RSIAMM_on_tick_valid_signal (h : Host.t) (r : run RSIAMM.t) :
  Runs.valid_signal (RSIAMM.rsi_signal (self r)) ->
  Runs.valid_signal (RSIAMM.rsi_signal (self (snd (RSIAMM.on_tick h r)))).
Proof.
  intros Hvalid.
  destruct (RSIAMM_on_tick_timer_cases h r) as [Hsame | [_ Hnew]];
    unfold RSIAMM.timer in *.
  - injection Hsame as -> _. assumption.
  - injection Hnew as -> _. apply rsi_signal_of_valid.
Qed.

(** X9.  Whatever the framework reports from tick to tick, and whichever
    ticks raise, the cached signal of the first variant stays one of -1, 0
    and 1 once it is; it is 0 on a new object. *)
Theorem X9_cached_signal_stays_valid
  (hs : list Host.t) (r : run RSIAMM.t)
  (Hvalid : Runs.valid_signal (RSIAMM.rsi_signal (self r))) :
  Runs.valid_signal (RSIAMM.rsi_signal (self (Runs.ticks hs r))).
Proof.
  revert r Hvalid. induction hs as [|h hs IH]; intros r Hvalid.
  - exact Hvalid.
  - simpl. apply IH. apply RSIAMM_on_tick_valid_signal. assumption.
Qed.

Lemma X9_witness :
  Runs.valid_signal
    (RSIAMM.rsi_signal
       (self (Runs.ticks [ Sample.host 1000 100 [Sample.candle 100] 80 1;
                           Sample.host 1020 300 [] 10 1;
                           Sample.host 1040 300 [Sample.candle 100] 10 1 ]
                         (mkRun (RSIAMM.new ∅) [])))).
Proof.
  apply (X9_cached_signal_stays_valid
           [ Sample.host 1000 100 [Sample.candle 100] 80 1;
             Sample.host 1020 300 [] 10 1;
             Sample.host 1040 300 [Sample.candle 100] 10 1 ]
           (mkRun (RSIAMM.new ∅) [])).
  right. left. reflexivity.
Defined.

Lemma RSIAMM_on_tick_parameters (h : Host.t) :
  preserves Runs.parameters (RSIAMM.on_tick h).
Proof.
  unfold RSIAMM.on_tick. frame. unfold RSIAMM.place_order. frame.
Qed.

(** X10.  No tick of the first variant changes a parameter of the strategy:
    spreads, refresh interval, order amount, trading pair, exchange, candle
    interval, NATR period, buffer size, skew percentage, price source and
    candle count are after any run of ticks what they were before it. *)
Theorem X10_parameters_never_change (hs : list Host.t) (r : run RSIAMM.t) :
  Runs.parameters (self (Runs.ticks hs r)) = Runs.parameters (self r).
Proof.
  revert r. induction hs as [|h hs IH]; intros r.
  - reflexivity.
  - simpl. rewrite IH. apply RSIAMM_on_tick_parameters.
Qed.

Lemma RSIAMM_on_tick_deadline_monotone (h : Host.t) (r : run RSIAMM.t) :
  0 <= RSIAMM.rsi_refresh_time (self r) ->
  RSIAMM.create_timestamp (self r)
  <= RSIAMM.create_timestamp (self (snd (RSIAMM.on_tick h r))).
Proof.
  intros Hrefresh.
  destruct (RSIAMM_on_tick_timer_cases h r) as [Hsame | [Hpassed Hnew]];
    unfold RSIAMM.timer in *.
  - injection Hsame as _ ->. apply Qle_refl.
  - injection Hnew as _ ->. lra.
Qed.

(** X11.  With a non-negative refresh interval the refresh deadline of the
    first variant never moves backwards, over any run of ticks. *)
Theorem X11_deadline_never_moves_back
  (hs : list Host.t) (r : run RSIAMM.t)
  (Hrefresh : 0 <= RSIAMM.rsi_refresh_time (self r)) :
  RSIAMM.create_timestamp (self r)
  <= RSIAMM.create_timestamp (self (Runs.ticks hs r)).
Proof.
  revert r Hrefresh. induction hs as [|h hs IH]; intros r Hrefresh.
  - apply Qle_refl.
  - simpl. eapply Qle_trans.
    + apply (RSIAMM_on_tick_deadline_monotone h r Hrefresh).
    + apply IH.
      pose proof (RSIAMM_on_tick_parameters h r) as Hpar.
      unfold Runs.parameters in Hpar.
      injection Hpar as _ _ -> _ _ _ _ _ _ _ _ _. assumption.
Qed.

Lemma X11_witness :
  RSIAMM.create_timestamp (RSIAMM.new ∅)
  <= RSIAMM.create_timestamp
       (self (Runs.ticks [ Sample.host 1000 100 [Sample.candle 100] 80 1;
                           Sample.host 900 300 [Sample.candle 100] 10 1 ]
                         (mkRun (RSIAMM.new ∅) []))).
Proof.
  apply (X11_deadline_never_moves_back
           [ Sample.host 1000 100 [Sample.candle 100] 80 1;
             Sample.host 900 300 [Sample.candle 100] 10 1 ]
           (mkRun (RSIAMM.new ∅) [])).
  vm_compute. discriminate.
Defined.


(** ** Reads and loops *)

(** X13.  [get_natr] of the first variant reads the candle table of the
    data provider and never changes the object.  The indicator library uses
    the window [natr_period] (its default 14 for a window that is not
    positive); on a table with more rows than the window, [get_natr] returns
    the latest NATR value divided by 100, as floats; on any other table, the
    empty one included, [ta.natr] returns [None] and [natr.iloc] raises
    [AttributeError]. *)
Theorem X13_get_natr_total (h : Host.t) (r : run RSIAMM.t) :
  let s := self r in
  let df := Runs.natr_df h s in
  let window := Runs.natr_length s in
  RSIAMM.get_natr h r =
  (if (window <? Z.of_nat (length df))%Z
   then Py.Return (F64.div (Spec.latest (Host.ta_natr h window) df) (F64.of_Z 100))
   else Py.Raise (Py.AttributeError "iloc"), r) /\
  ((0 < RSIAMM.natr_period s)%Z -> window = RSIAMM.natr_period s) /\
  ((RSIAMM.natr_period s <= 0)%Z -> window = 14%Z).
Proof.
  intros s df window. split; [|split].
  - apply RSIAMM_get_natr_run.
  - intros Hpos. unfold window, Runs.natr_length, Host.ta_length.
    destruct (Z.ltb_spec 0 (RSIAMM.natr_period s)); [reflexivity | lia].
  - intros Hneg. unfold window, Runs.natr_length, Host.ta_length.
    destruct (Z.ltb_spec 0 (RSIAMM.natr_period s)); [lia | reflexivity].
Qed.

Lemma placed_length (connector : string) (proposal : list Host.OrderCandidate) :
  (length (Spec.placed connector proposal) <= length proposal)%nat.
Proof.
  induction proposal as [|o rest IH]; simpl; [lia|].
  rewrite length_app. destruct (Host.order_side o); simpl; lia.
Qed.

(** X14.  The two loops of the first variant never raise and leave the
    object alone.  [place_orders] makes, in the order of the proposal, one
    [buy] or [sell] call per candidate with side BUY or SELL, on
    [self.exchange] and with the candidate's own pair, amount, order type and
    price; a candidate with another side is passed over, so it makes at most
    as many calls as there are candidates.  [cancel_all_orders] makes exactly
    one [cancel] call per active order of [self.exchange]. *)
Theorem X14_order_loops
  (h : Host.t) (proposal : list Host.OrderCandidate) (r : run RSIAMM.t) :
  let connector := RSIAMM.exchange (self r) in
  RSIAMM.place_orders proposal r =
  (Py.Return tt, mkRun (self r) (calls r ++ Spec.placed connector proposal)) /\
  (length (Spec.placed connector proposal) <= length proposal)%nat /\
  (forall o : Host.OrderCandidate,
      Host.order_side o = Host.RANGE -> Spec.placed connector [o] = []) /\
  RSIAMM.cancel_all_orders h r =
  (Py.Return tt,
   mkRun (self r)
     (calls r ++ Spec.cancelled connector (Host.get_active_orders h connector))) /\
  length (Spec.cancelled connector (Host.get_active_orders h connector))
  = length (Host.get_active_orders h connector).
Proof.
  intros connector. subst connector. split; [|split; [|split; [|split]]].
  - apply RSIAMM_place_orders_calls.
  - apply placed_length.
  - intros o Hside. unfold Spec.placed. simpl. rewrite Hside. reflexivity.
  - apply RSIAMM_cancel_all_orders_calls.
  - unfold Spec.cancelled. apply length_fmap.
Qed.
(** X15.  [get_signal] of the second variant, called with its two
    arguments, never changes the object and never returns [None]: the test
    of line 161 comes after line 159, which raises [KeyError] on every table
    where the indicator library has appended no column [RSI_<rsi_period>],
    that is unless [rsi_period] is positive and the table has more rows than
    that.  Otherwise it returns -1 when the latest RSI value is above
    [rsi_high], whatever [rsi_low] is, else 1 when the value is below
    [rsi_low], else 0. *)
Theorem X15_get_signal_total
  (h : Host.t) (connector_name trading_pair : string) (r : run RsiAmmV2.t) :
  let c := RsiAmmV2.config (self r) in
  let df := Host.get_candles_df h connector_name trading_pair
              (RsiAmmV2Config.interval c) (RsiAmmV2.max_records (self r)) in
  let v := Spec.latest (Host.ta_rsi h (RsiAmmV2Config.rsi_period c)) df in
  RsiAmmV2.get_signal h connector_name trading_pair r =
  (if (0 <? RsiAmmV2Config.rsi_period c)%Z
      && (RsiAmmV2Config.rsi_period c <? Z.of_nat (length df))%Z
   then Py.Return
          (Some (if F64.gt v (RsiAmmV2Config.rsi_high c) then -1
                 else if F64.lt v (RsiAmmV2Config.rsi_low c) then 1 else 0)%Z)
   else Py.Raise (Py.KeyError ("RSI_" +:+ pretty (RsiAmmV2Config.rsi_period c))), r) /\
  fst (RsiAmmV2.get_signal h connector_name trading_pair r) <> Py.Return None /\
  (forall signal : Z,
      fst (RsiAmmV2.get_signal h connector_name trading_pair r) = Py.Return (Some signal) ->
      Runs.valid_signal signal).
Proof.
  intros c df v.
  assert (RsiAmmV2.get_signal h connector_name trading_pair r =
          (if (0 <? RsiAmmV2Config.rsi_period c)%Z
              && (RsiAmmV2Config.rsi_period c <? Z.of_nat (length df))%Z
           then Py.Return
                  (Some (if F64.gt v (RsiAmmV2Config.rsi_high c) then -1
                         else if F64.lt v (RsiAmmV2Config.rsi_low c) then 1 else 0)%Z)
           else Py.Raise (Py.KeyError ("RSI_" +:+ pretty (RsiAmmV2Config.rsi_period c))),
           r)) as Hvalue.
  { destruct ((0 <? RsiAmmV2Config.rsi_period c)%Z
              && (RsiAmmV2Config.rsi_period c <? Z.of_nat (length df))%Z) eqn:Hcol.
    - apply andb_prop in Hcol as [Hpos Hrows].
      apply Z.ltb_lt in Hpos. apply Z.ltb_lt in Hrows.
      apply RsiAmmV2_get_signal_value. apply has_rsi_column_iff. split; assumption.
    - apply RsiAmmV2_get_signal_missing. fold c. fold df.
      apply Bool.not_true_is_false. intros H. apply has_rsi_column_iff in H.
      destruct H as [Hpos Hrows].
      apply Z.ltb_lt in Hpos. apply Z.ltb_lt in Hrows.
      rewrite Hpos, Hrows in Hcol. discriminate. }
  split; [exact Hvalue|].
  rewrite Hvalue. cbn [fst].
  destruct ((0 <? RsiAmmV2Config.rsi_period c)%Z
            && (RsiAmmV2Config.rsi_period c <? Z.of_nat (length df))%Z).
  - split; [discriminate|]. intros signal. unfold Runs.valid_signal.
    destruct (F64.gt v _); [|destruct (F64.lt v _)]; intros [= <-]; auto.
  - split; [discriminate|]. intros signal. discriminate.
Qed.

(** ** The tick of the second variant *)

Lemma RsiAmmV2_getattr_num_state (name : string) (r : run RsiAmmV2.t) :
  snd (RsiAmmV2.getattr_num name r) = r.
Proof.
  unfold RsiAmmV2.getattr_num, Py.bind, this, Py.lift.
  destruct (Py.getattr _ _) as [v|e]; [|reflexivity].
  destruct (Py.as_num v); reflexivity.
Qed.

(** While [natr_period] is undefined, a tick of the second variant ends in
    one of four ways. *)
Lemma RsiAmmV2_tick_outcomes (h : Host.t) (r : run RsiAmmV2.t) :
  RsiAmmV2Config.base_fields (RsiAmmV2.config (self r)) !! "natr_period" = None ->
  let mid := Host.get_price_by_type h
               (RsiAmmV2Config.exchange (RsiAmmV2.config (self r)))
               (RsiAmmV2Config.exchange (RsiAmmV2.config (self r))) Host.MidPrice in
  RsiAmmV2.create_actions_proposal h r = (Py.Return [], r) \/
  (exists e, RsiAmmV2.create_actions_proposal h r = (Py.Raise e, r)) \/
  RsiAmmV2.create_actions_proposal h r
  = (Py.Raise (Py.TypeError "get_signal(): wrong number of positional arguments"), r) \/
  RsiAmmV2.create_actions_proposal h r
  = (Py.Raise (Py.AttributeError "natr_period"),
     mkRun (self r) (calls r ++ [Host.log "Mid price is" (Some mid)])).
Proof.
  intros Hbase mid.
  remember (RsiAmmV2.create_actions_proposal h r) as T eqn:HT.
  unfold RsiAmmV2.create_actions_proposal in HT.
  destruct (Host.ready h); cbn [negb] in HT; [|left; exact HT].
  unfold Py.bind at 1 in HT. unfold this at 1 in HT. cbn beta iota zeta in HT.
  unfold Py.bind at 1 in HT.
  pose proof (RsiAmmV2_getattr_num_state "create_timestamp" r) as Hst.
  destruct (RsiAmmV2.getattr_num "create_timestamp" r) as [[deadline|e] r0];
    simpl in Hst; subst r0; [|right; left; exists e; exact HT].
  destruct (Py.le deadline (Host.current_timestamp h)).
  - right. right. left. exact HT.
  - unfold Py.bind at 1 in HT. unfold Py.ret at 1 in HT. cbn beta iota in HT.
    unfold Py.bind at 1 in HT. unfold this at 1 in HT. cbn beta iota in HT.
    fold mid in HT.
    destruct (RsiAmmV2.should_requote _ _ _); [|left; exact HT].
    right. right. right.
    unfold Py.bind at 1 in HT. cbn [emit Py.modify] in HT. cbn beta iota in HT.
    unfold Py.bind at 1 in HT.
    rewrite RsiAmmV2_create_proposal_undefined in HT by exact Hbase.
    exact HT.
Qed.

Lemma RsiAmmV2_tick_never_acts (h : Host.t) (r : run RsiAmmV2.t) :
  RsiAmmV2Config.base_fields (RsiAmmV2.config (self r)) !! "natr_period" = None ->
  self (snd (RsiAmmV2.create_actions_proposal h r)) = self r /\
  (forall actions,
      fst (RsiAmmV2.create_actions_proposal h r) = Py.Return actions -> actions = []).
Proof.
  intros Hbase.
  destruct (RsiAmmV2_tick_outcomes h r Hbase) as [H | [[e H] | [H | H]]]; rewrite H;
    cbn [fst snd self]; (split; [reflexivity|]); intros actions Hret;
    try discriminate.
  injection Hret as <-. reflexivity.
Qed.

(** X16.  While the configuration does not define [natr_period], the second
    variant never creates an executor and never changes its own state: over
    any run of ticks the strategy object stays as it was, and every tick
    either raises or returns the empty list of actions. *)
Theorem X16_second_variant_never_acts
  (hs : list Host.t) (h : Host.t) (r : run RsiAmmV2.t)
  (Hbase : RsiAmmV2Config.base_fields (RsiAmmV2.config (self r)) !! "natr_period"
           = None) :
  self (Runs.ticks2 hs r) = self r /\
  (forall actions,
      fst (RsiAmmV2.create_actions_proposal h (Runs.ticks2 hs r)) = Py.Return actions ->
      actions = []).
Proof.
  assert (self (Runs.ticks2 hs r) = self r) as Hself.
  { revert r Hbase. induction hs as [|h0 hs IH]; intros r Hbase; [reflexivity|].
    simpl. destruct (RsiAmmV2_tick_never_acts h0 r Hbase) as [Hstep _].
    rewrite IH; [exact Hstep|]. rewrite Hstep. exact Hbase. }
  split; [exact Hself|].
  apply RsiAmmV2_tick_never_acts. rewrite Hself. exact Hbase.
Qed.

Lemma X16_witness :
  let hs := [ Sample.host 1000 100 [Sample.candle 100] 80 1;
              Sample.host 1020 300 [Sample.candle 100] 10 1 ] in
  let h := Sample.host 1040 500 [Sample.candle 100] 10 1 in
  let r := mkRun (RsiAmmV2.new (RsiAmmV2Config.default ∅)
                    (<["create_timestamp" := Py.Int 2000]> Sample.timer_attrs)) [] in
  self (Runs.ticks2 hs r) = self r /\
  (forall actions,
      fst (RsiAmmV2.create_actions_proposal h (Runs.ticks2 hs r)) = Py.Return actions ->
      actions = []).
Proof.
  apply (X16_second_variant_never_acts
           [ Sample.host 1000 100 [Sample.candle 100] 80 1;
             Sample.host 1020 300 [Sample.candle 100] 10 1 ]
           (Sample.host 1040 500 [Sample.candle 100] 10 1)
           (mkRun (RsiAmmV2.new (RsiAmmV2Config.default ∅)
                     (<["create_timestamp" := Py.Int 2000]> Sample.timer_attrs)) [])).
  reflexivity.
Defined.

(** X17.  The tick of the second variant asks the framework for one price
    only: the mid price of the pair named like [config.exchange] on
    [config.exchange].  Two frameworks that agree on that price, and on
    everything else but prices, give the same tick; the price of the
    configured trading pair plays no part. *)
Theorem X17_tick_price_lookup
  (h : Host.t) (prices : string -> string -> Host.PriceType -> Q) (r : run RsiAmmV2.t)
  (Hprice :
     let exchange := RsiAmmV2Config.exchange (RsiAmmV2.config (self r)) in
     prices exchange exchange Host.MidPrice
     = Host.get_price_by_type h exchange exchange Host.MidPrice) :
  let h' := Host.mk (Host.ready h) (Host.current_timestamp h) prices
              (Host.feed_candles_df h) (Host.get_candles_df h) (Host.ta_rsi h)
              (Host.ta_natr h) (Host.adjust_candidates h) (Host.get_active_orders h) in
  RsiAmmV2.create_actions_proposal h' r = RsiAmmV2.create_actions_proposal h r.
Proof.
  intros h'. cbv zeta in Hprice.
  unfold RsiAmmV2.create_actions_proposal.
  change (Host.ready h') with (Host.ready h).
  destruct (Host.ready h); cbn [negb]; [|reflexivity].
  unfold Py.bind at 1 3. unfold this at 1 3. cbn beta iota zeta.
  change (Host.get_price_by_type h') with prices.
  rewrite Hprice. reflexivity.
Qed.

Lemma X17_witness :
  let h := Sample.host 1000 100 [Sample.candle 100] 80 1 in
  let prices := fun (connector pair : string) (_ : Host.PriceType) =>
                  if String.eqb pair "BTC-USDT" then 65000 else 100 in
  let h' := Host.mk (Host.ready h) (Host.current_timestamp h) prices
              (Host.feed_candles_df h) (Host.get_candles_df h) (Host.ta_rsi h)
              (Host.ta_natr h) (Host.adjust_candidates h) (Host.get_active_orders h) in
  let r := mkRun (RsiAmmV2.new (RsiAmmV2Config.default ∅) Sample.timer_attrs) [] in
  RsiAmmV2.create_actions_proposal h' r = RsiAmmV2.create_actions_proposal h r.
Proof.
  apply (X17_tick_price_lookup
           (Sample.host 1000 100 [Sample.candle 100] 80 1)
           (fun (connector pair : string) (_ : Host.PriceType) =>
              if String.eqb pair "BTC-USDT" then 65000 else 100)
           (mkRun (RsiAmmV2.new (RsiAmmV2Config.default ∅) Sample.timer_attrs) [])).
  reflexivity.
Defined.

(** X18.  The executor actions of the second variant are made from the
    first two candidates of the adjusted proposal and from nothing else: with
    fewer than two candidates [pop(0)] raises [IndexError], with more the
    others are ignored; the object is not changed. *)
Theorem X18_executor_actions_total
  (h : Host.t) (proposal_adjusted : list Host.OrderCandidate) (r : run RsiAmmV2.t) :
  let c := RsiAmmV2.config (self r) in
  RsiAmmV2.executor_actions h proposal_adjusted r =
  (match proposal_adjusted with
   | o1 :: o2 :: _ =>
       Py.Return
         [ Host.mkCreateExecutorAction
             (Host.mkPositionExecutorConfig (Host.current_timestamp h)
                (RsiAmmV2Config.trading_pair c) (RsiAmmV2Config.connector c)
                (Host.order_side o1) (Host.amount o1));
           Host.mkCreateExecutorAction
             (Host.mkPositionExecutorConfig (Host.current_timestamp h)
                (RsiAmmV2Config.trading_pair c) (RsiAmmV2Config.connector c)
                (Host.order_side o2) (Host.amount o2)) ]
   | _ => Py.Raise (Py.IndexError "pop from empty list")
   end, r) /\
  ((length proposal_adjusted < 2)%nat
   <-> fst (RsiAmmV2.executor_actions h proposal_adjusted r)
       = Py.Raise (Py.IndexError "pop from empty list")).
Proof.
  intros c. destruct proposal_adjusted as [|o1 [|o2 rest]].
  - split; [reflexivity|]. simpl. split; [reflexivity | lia].
  - split; [reflexivity|]. simpl. split; [reflexivity | lia].
  - split; [reflexivity|]. simpl. split; [lia | discriminate].
Qed.
(** ** Start-up of the second variant *)

Section Start.
Import RsiAmmV2Start.
Variable x : Exchanges.

Lemma config_attr_run (name : string) (b : boot) :
  config_attr name b
  = (Py.getattr (RsiAmmV2Config.attrs (RsiAmmV2.config (strategy b))) name, b).
Proof. reflexivity. Qed.

Lemma RsiAmmV2Config_other_attr (c : RsiAmmV2Config.t) (name : string) :
  name = "position_mode" \/ name = "leverage" ->
  RsiAmmV2Config.attrs c !! name = RsiAmmV2Config.base_fields c !! name.
Proof.
  intros [-> | ->]; unfold RsiAmmV2Config.attrs; apply lookup_union_r; reflexivity.
Qed.

(** Without [position_mode] the loop raises at the first perpetual
    connector, before any setting is made. *)
Lemma apply_to_connectors_undefined (names : list string) (b : boot) :
  RsiAmmV2Config.base_fields (RsiAmmV2.config (strategy b)) !! "position_mode" = None ->
  apply_to_connectors x names b =
  (if existsb (is_perpetual x) names
   then Py.Raise (Py.AttributeError "position_mode")
   else Py.Return tt, b).
Proof.
  intros Hbase. induction names as [|connector rest IH]; [reflexivity|].
  cbn [apply_to_connectors existsb]. unfold Py.bind at 1.
  destruct (is_perpetual x connector); cbn [orb].
  - unfold Py.bind at 1. rewrite config_attr_run. unfold Py.getattr.
    rewrite RsiAmmV2Config_other_attr by (left; reflexivity).
    rewrite Hbase. reflexivity.
  - unfold Py.ret at 1. cbn beta iota. exact IH.
Qed.

Lemma set_leverages_run (connector : string) (leverage : Py.value)
      (trading_pairs : list string) (b : boot) :
  RsiAmmV2Config.attrs (RsiAmmV2.config (strategy b)) !! "leverage" = Some leverage ->
  set_leverages connector trading_pairs b =
  (Py.Return tt,
   mkBoot (strategy b)
     (settings b ++ ((fun trading_pair => set_leverage connector trading_pair leverage)
                       <$> trading_pairs))).
Proof.
  intros Hlev. revert b Hlev.
  induction trading_pairs as [|p rest IH]; intros b Hlev.
  - simpl. rewrite app_nil_r. destruct b; reflexivity.
  - cbn [set_leverages]. unfold Py.bind at 1. rewrite config_attr_run.
    unfold Py.getattr. rewrite Hlev.
    unfold Py.bind at 1. unfold apply_setting at 1. unfold Py.modify.
    rewrite IH by exact Hlev. cbn [strategy settings fmap list_fmap].
    rewrite <- app_assoc. reflexivity.
Qed.

Lemma apply_to_connectors_run (position_mode leverage : Py.value)
      (names : list string) (b : boot) :
  RsiAmmV2Config.attrs (RsiAmmV2.config (strategy b)) !! "position_mode"
  = Some position_mode ->
  RsiAmmV2Config.attrs (RsiAmmV2.config (strategy b)) !! "leverage" = Some leverage ->
  apply_to_connectors x names b =
  (Py.Return tt,
   mkBoot (strategy b) (settings b ++ settings_of x position_mode leverage names)).
Proof.
  intros Hmode Hlev. revert b Hmode Hlev.
  induction names as [|connector rest IH]; intros b Hmode Hlev.
  - simpl. rewrite app_nil_r. destruct b; reflexivity.
  - cbn [apply_to_connectors settings_of flat_map]. unfold Py.bind at 1.
    destruct (is_perpetual x connector).
    + unfold Py.bind at 1. rewrite config_attr_run. unfold Py.getattr.
      rewrite Hmode.
      unfold Py.bind at 1. unfold apply_setting at 1. unfold Py.modify.
      rewrite (set_leverages_run connector leverage) by exact Hlev.
      cbn [strategy settings]. rewrite IH by assumption.
      cbn [strategy settings]. unfold settings_of.
      rewrite <- !app_assoc. reflexivity.
    + unfold Py.ret at 1. cbn beta iota. rewrite IH by assumption. reflexivity.
Qed.

End Start.

(** X19.  While the configuration does not define [position_mode], [start]
    of the second variant makes no setting on any connector: it binds
    [_last_timestamp], and then returns when no connector is a perpetual
    market and raises [AttributeError] at the first perpetual one
    otherwise. *)
Theorem X19_start_without_position_mode
  (x : RsiAmmV2Start.Exchanges) (timestamp : Q) (b : RsiAmmV2Start.boot)
  (Hbase : RsiAmmV2Config.base_fields (RsiAmmV2.config (RsiAmmV2Start.strategy b))
             !! "position_mode" = None) :
  RsiAmmV2Start.start x timestamp b =
  (if existsb (RsiAmmV2Start.is_perpetual x) (RsiAmmV2Start.connectors x)
   then Py.Raise (Py.AttributeError "position_mode")
   else Py.Return tt,
   RsiAmmV2Start.mkBoot
     (RsiAmmV2.setattr "_last_timestamp" (Py.Num timestamp) (RsiAmmV2Start.strategy b))
     (RsiAmmV2Start.settings b)).
Proof.
  unfold RsiAmmV2Start.start, RsiAmmV2Start.apply_initial_setting.
  unfold Py.bind at 1. unfold Py.modify at 1.
  rewrite apply_to_connectors_undefined by exact Hbase. reflexivity.
Qed.

Lemma X19_witness :
  let x := RsiAmmV2Start.mkExchanges ["binance"; "binance_perpetual"]
             (fun name => String.eqb name "binance_perpetual")
             (fun _ => ["BTC-USDT"]) in
  let b := RsiAmmV2Start.mkBoot (RsiAmmV2.new (RsiAmmV2Config.default ∅) ∅) [] in
  RsiAmmV2Start.start x 1000 b =
  (Py.Raise (Py.AttributeError "position_mode"),
   RsiAmmV2Start.mkBoot
     (RsiAmmV2.setattr "_last_timestamp" (Py.Num 1000)
        (RsiAmmV2.new (RsiAmmV2Config.default ∅) ∅)) []).
Proof.
  apply (X19_start_without_position_mode
           (RsiAmmV2Start.mkExchanges ["binance"; "binance_perpetual"]
              (fun name => String.eqb name "binance_perpetual")
              (fun _ => ["BTC-USDT"]))
           1000
           (RsiAmmV2Start.mkBoot (RsiAmmV2.new (RsiAmmV2Config.default ∅) ∅) [])).
  reflexivity.
Defined.

(** X20.  When the configuration defines [position_mode] and [leverage],
    [start] of the second variant never raises: after binding
    [_last_timestamp] it sets, for each perpetual connector in turn, the
    position mode and then the leverage of each of its trading pairs, and it
    makes no setting on the other connectors. *)
Theorem X20_start_settings
  (x : RsiAmmV2Start.Exchanges) (timestamp : Q) (b : RsiAmmV2Start.boot)
  (position_mode leverage : Py.value)
  (Hmode : RsiAmmV2Config.attrs (RsiAmmV2.config (RsiAmmV2Start.strategy b))
             !! "position_mode" = Some position_mode)
  (Hleverage : RsiAmmV2Config.attrs (RsiAmmV2.config (RsiAmmV2Start.strategy b))
                 !! "leverage" = Some leverage) :
  RsiAmmV2Start.start x timestamp b =
  (Py.Return tt,
   RsiAmmV2Start.mkBoot
     (RsiAmmV2.setattr "_last_timestamp" (Py.Num timestamp) (RsiAmmV2Start.strategy b))
     (RsiAmmV2Start.settings b
        ++ RsiAmmV2Start.settings_of x position_mode leverage
             (RsiAmmV2Start.connectors x))).
Proof.
  unfold RsiAmmV2Start.start, RsiAmmV2Start.apply_initial_setting.
  unfold Py.bind at 1. unfold Py.modify at 1.
  rewrite (apply_to_connectors_run x position_mode leverage) by assumption.
  reflexivity.
Qed.

Lemma X20_witness :
  let x := RsiAmmV2Start.mkExchanges ["binance"; "binance_perpetual"]
             (fun name => String.eqb name "binance_perpetual")
             (fun _ => ["BTC-USDT"; "ETH-USDT"]) in
  let base : gmap string Py.value :=
    list_to_map [("position_mode", Py.Str "HEDGE"); ("leverage", Py.Int 20)] in
  let b := RsiAmmV2Start.mkBoot (RsiAmmV2.new (RsiAmmV2Config.default base) ∅) [] in
  RsiAmmV2Start.start x 1000 b =
  (Py.Return tt,
   RsiAmmV2Start.mkBoot
     (RsiAmmV2.setattr "_last_timestamp" (Py.Num 1000)
        (RsiAmmV2.new (RsiAmmV2Config.default base) ∅))
     [ RsiAmmV2Start.set_position_mode "binance_perpetual" (Py.Str "HEDGE");
       RsiAmmV2Start.set_leverage "binance_perpetual" "BTC-USDT" (Py.Int 20);
       RsiAmmV2Start.set_leverage "binance_perpetual" "ETH-USDT" (Py.Int 20) ]).
Proof.
  intros x base b.
  apply (X20_start_settings x 1000 b (Py.Str "HEDGE") (Py.Int 20)); reflexivity.
Defined.
(** ** Boundaries of the signal *)

(** The signal of a float is 0 exactly when the float is NaN or a finite
    number between the two thresholds, ends included. *)
Lemma neutral_iff (v : F64.t) (low high : Q) :
  (if F64.gt v high then -1 else if F64.lt v low then 1 else 0)%Z = 0%Z
  <-> v = S754_nan \/ (F64.finite v = true /\ low <= F64.value v /\ F64.value v <= high).
Proof.
  destruct v as [s|s| |s m e].
  - unfold F64.gt, F64.lt.
    destruct (Py.gt _ high) eqn:Hgt; [|destruct (Py.lt _ low) eqn:Hlt].
    + apply Py_gt_iff in Hgt. split; [discriminate|].
      intros [H|(_ & _ & H)]; [discriminate | lra].
    + apply Py_lt_iff in Hlt. split; [discriminate|].
      intros [H|(_ & H & _)]; [discriminate | lra].
    + apply Py_lt_false_iff in Hgt. apply Py_lt_false_iff in Hlt.
      split; [intros _; right; repeat split; assumption | reflexivity].
  - unfold F64.gt, F64.lt. destruct s; cbn [negb];
      (split; [discriminate|]); intros [H|(H & _)]; discriminate.
  - split; [intros _; left; reflexivity | reflexivity].
  - unfold F64.gt, F64.lt.
    destruct (Py.gt _ high) eqn:Hgt; [|destruct (Py.lt _ low) eqn:Hlt].
    + apply Py_gt_iff in Hgt. split; [discriminate|].
      intros [H|(_ & _ & H)]; [discriminate | lra].
    + apply Py_lt_iff in Hlt. split; [discriminate|].
      intros [H|(_ & H & _)]; [discriminate | lra].
    + apply Py_lt_false_iff in Hgt. apply Py_lt_false_iff in Hlt.
      split; [intros _; right; repeat split; assumption | reflexivity].
Qed.

(** X21.  The comparisons of both signal computations are strict, and false
    for NaN.  So on a candle table with more rows than the RSI period (7 in
    the first variant, the positive [rsi_period] in the second) the first
    variant returns 0 exactly when the latest RSI value is NaN or lies in
    [30, 70], and the second exactly when it is NaN or lies in
    [rsi_low, rsi_high]: the band between the thresholds is neutral with its
    two ends. *)
Theorem X21_neutral_band_is_closed
  (h : Host.t) (r1 : run RSIAMM.t) (r2 : run RsiAmmV2.t)
  (connector_name trading_pair : string)
  (Hfeed : (7 < Z.of_nat (length (Host.feed_candles_df h)))%Z)
  (Hperiod : (0 < RsiAmmV2Config.rsi_period (RsiAmmV2.config (self r2)))%Z)
  (Hdf : (RsiAmmV2Config.rsi_period (RsiAmmV2.config (self r2))
          < Z.of_nat (length (Host.get_candles_df h connector_name trading_pair
                                (RsiAmmV2Config.interval (RsiAmmV2.config (self r2)))
                                (RsiAmmV2.max_records (self r2)))))%Z) :
  let c := RsiAmmV2.config (self r2) in
  let v1 := Spec.latest (Host.ta_rsi h 7) (Host.feed_candles_df h) in
  let v2 := Spec.latest (Host.ta_rsi h (RsiAmmV2Config.rsi_period c))
              (Host.get_candles_df h connector_name trading_pair
                 (RsiAmmV2Config.interval c) (RsiAmmV2.max_records (self r2))) in
  (fst (RSIAMM.get_rsi_signal h r1) = Py.Return 0%Z
   <-> v1 = S754_nan \/
       (F64.finite v1 = true /\ 30 <= F64.value v1 /\ F64.value v1 <= 70)) /\
  (fst (RsiAmmV2.get_signal h connector_name trading_pair r2) = Py.Return (Some 0%Z)
   <-> v2 = S754_nan \/
       (F64.finite v2 = true /\ RsiAmmV2Config.rsi_low c <= F64.value v2 /\
        F64.value v2 <= RsiAmmV2Config.rsi_high c)).
Proof.
  intros c v1 v2. apply ta_computes_iff in Hfeed.
  assert (RsiAmmV2.has_rsi_column c
            (Host.get_candles_df h connector_name trading_pair
               (RsiAmmV2Config.interval c) (RsiAmmV2.max_records (self r2))) = true)
    as Hcol by (apply has_rsi_column_iff; split; assumption).
  split.
  - rewrite RSIAMM_get_rsi_signal_run
      by (apply (ta_computes_nonempty 7); [lia | exact Hfeed]).
    cbv zeta. cbn [fst]. rewrite (rsi_value_computed h Hfeed). fold v1.
    rewrite <- (neutral_iff v1 30 70). unfold Runs.rsi_signal_of.
    split; [intros [= ->]; reflexivity | intros ->; reflexivity].
  - rewrite (RsiAmmV2_get_signal_value h connector_name trading_pair r2 Hcol).
    cbv zeta. cbn [fst]. fold c. fold v2.
    rewrite <- (neutral_iff v2 (RsiAmmV2Config.rsi_low c) (RsiAmmV2Config.rsi_high c)).
    split; [intros [= ->]; reflexivity | intros ->; reflexivity].
Qed.

Lemma X21_witness :
  let h := Sample.host 1000 100 (Sample.table 15) 70 1 in
  let r1 := mkRun (RSIAMM.new ∅) [] in
  let r2 := mkRun (RsiAmmV2.new (RsiAmmV2Config.default ∅) ∅) [] in
  fst (RSIAMM.get_rsi_signal h r1) = Py.Return 0%Z /\
  fst (RsiAmmV2.get_signal h "binance" "BTC-USDT" r2) = Py.Return (Some 0%Z).
Proof.
  intros h r1 r2.
  assert (7 < Z.of_nat (length (Host.feed_candles_df h)))%Z as Hfeed by reflexivity.
  assert (0 < RsiAmmV2Config.rsi_period (RsiAmmV2.config (self r2)))%Z as Hperiod
    by reflexivity.
  assert (RsiAmmV2Config.rsi_period (RsiAmmV2.config (self r2))
          < Z.of_nat (length (Host.get_candles_df h "binance" "BTC-USDT"
                                (RsiAmmV2Config.interval (RsiAmmV2.config (self r2)))
                                (RsiAmmV2.max_records (self r2)))))%Z as Hdf
    by reflexivity.
  destruct (X21_neutral_band_is_closed h r1 r2 "binance" "BTC-USDT" Hfeed Hperiod Hdf)
    as [Hfirst Hsecond].
  split; [apply Hfirst | apply Hsecond]; right;
    (split; [reflexivity|]); split; vm_compute; discriminate.
Defined.

(** X22.  While the refresh deadline has passed and the candle feed is
    empty, every tick of the first variant on a ready framework raises at the
    refresh and leaves the object and the calls as they are: the deadline is
    not moved, so the next tick tries again, and no order is cancelled or
    placed over the whole run. *)
Theorem X22_empty_feed_blocks_ticks
  (hs : list Host.t) (r : run RSIAMM.t)
  (Hticks : Forall (fun h => Host.ready h = true /\
                             RSIAMM.create_timestamp (self r) <= Host.current_timestamp h /\
                             Host.feed_candles_df h = []) hs) :
  Runs.ticks hs r = r /\
  Forall (fun h => exists e, fst (RSIAMM.on_tick h r) = Py.Raise e) hs.
Proof.
  induction Hticks as [|h hs (Hready & Hpassed & Hfeed) _ [IHrun IHraise]].
  - split; [reflexivity | constructor].
  - pose proof (RSIAMM_on_tick_empty_feed h r Hready Hpassed Hfeed) as Htick.
    split.
    + simpl. rewrite Htick. exact IHrun.
    + constructor; [|exact IHraise]. rewrite Htick. eexists. reflexivity.
Qed.

Lemma X22_witness :
  let hs := [ Sample.host 1000 100 [] 80 1; Sample.host 1001 300 [] 80 1 ] in
  let r := mkRun (RSIAMM.new ∅) [] in
  Runs.ticks hs r = r /\
  Forall (fun h => exists e, fst (RSIAMM.on_tick h r) = Py.Raise e) hs.
Proof.
  apply (X22_empty_feed_blocks_ticks
           [ Sample.host 1000 100 [] 80 1; Sample.host 1001 300 [] 80 1 ]
           (mkRun (RSIAMM.new ∅) [])).
  repeat constructor; vm_compute; discriminate.
Defined.
